(** * homebridge-camera-ffmpeg: the streaming delegate

    A shallow embedding of [StreamingDelegate] (streamingDelegate.ts): the
    constructor, the snapshot command, the prepare / start / reconfigure /
    stop handlers and [stopStream], followed by the properties checked
    against it.

    Conventions of the embedding.
    - JavaScript numbers that the delegate handles (dimensions, bit rates,
      ports, payload types, synchronisation sources) are integers, modelled
      as [Z]; [pretty] renders them the way string concatenation does.
    - An optional configuration value ([any] in the source) is an [option];
      [None] is [undefined].  Truthiness follows JavaScript: [undefined], [0]
      and the empty string are falsy.
    - [Record<string, T>] used as a dictionary is a [gmap string T] over the
      object's own properties.
    - Logging, process launches and callback invocations are recorded, in
      order, in a list of effects carried next to the delegate. *)

From Stdlib Require Import ZArith Ascii String Strings.Byte.
From stdpp Require Import gmap strings list pretty.

Local Open Scope Z_scope.

(** ** JavaScript values *)

Module Js.

(** Truthiness of [number | undefined]. *)
Definition truthy (o : option Z) : bool :=
  match o with
  | Some n => negb (n =? 0)
  | None => false
  end.

(** Truthiness of [string | undefined]. *)
Definition truthyStr (o : option string) : bool :=
  match o with
  | Some s => negb (String.eqb s "")
  | None => false
  end.

(** [a || b] where [a] is an optional number and [b] a number. *)
Definition orNum (a : option Z) (b : Z) : Z :=
  match a with
  | Some n => if n =? 0 then b else n
  | None => b
  end.

(** [a || b] where [a] is an optional string and [b] a string. *)
Definition orStr (a : option string) (b : string) : string :=
  match a with
  | Some s => if String.eqb s "" then b else s
  | None => b
  end.

(** [a || b] where both sides may be undefined (or [null]). *)
Definition orOpt (a b : option string) : option string :=
  if truthyStr a then a else b.

(** [a > b] on [number | undefined]: a comparison with [undefined] is
    false. *)
Definition gt (a b : option Z) : bool :=
  match a, b with
  | Some x, Some y => y <? x
  | _, _ => false
  end.

(** [a < b] on [number | undefined]. *)
Definition lt (a b : option Z) : bool := gt b a.

(** String conversion of [string | undefined] in a concatenation. *)
Definition str (o : option string) : string := default "undefined" o.

(** String conversion of [number | undefined] in a concatenation. *)
Definition numStr (o : option Z) : string :=
  match o with
  | Some n => pretty n
  | None => "undefined"
  end.

(** [Array.prototype.join]. *)
Fixpoint join (sep : string) (l : list string) : string :=
  match l with
  | [] => ""
  | [x] => x
  | x :: rest => x +:+ sep +:+ join sep rest
  end.

Definition isSpace (c : ascii) : bool :=
  let n := nat_of_ascii c in
  ((9 <=? n)%nat && (n <=? 13)%nat) || (n =? 32)%nat.

(** [s.split(/\s+/)], on ASCII white space: a maximal run of white space
    separates two fields, so white space at either end yields an empty
    field there. *)
Fixpoint splitGo (cur : string) (inSep : bool) (s : string) : list string :=
  match s with
  | EmptyString => [String.rev cur]
  | String c rest =>
      if isSpace c
      then (if inSep then splitGo cur true rest
            else String.rev cur :: splitGo "" true rest)
      else splitGo (String c cur) false rest
  end.

Definition split (s : string) : list string := splitGo "" false s.

(** [Buffer.prototype.toString('base64')]. *)
Definition b64Alphabet : string :=
  "ABCDEFGHIJKLMNOPQRSTUVWXYZabcdefghijklmnopqrstuvwxyz0123456789+/".

Definition b64Char (n : Z) : ascii :=
  default "="%char (String.get (Z.to_nat n) b64Alphabet).

Definition byteZ (b : byte) : Z := Z.of_N (Byte.to_N b).

Fixpoint base64 (bs : list byte) : string :=
  match bs with
  | [] => ""
  | [a] =>
      let x := byteZ a in
      String (b64Char (Z.shiftr x 2))
        (String (b64Char (Z.shiftl (Z.land x 3) 4)) "==")
  | [a; b] =>
      let x := byteZ a in
      let y := byteZ b in
      String (b64Char (Z.shiftr x 2))
        (String (b64Char (Z.lor (Z.shiftl (Z.land x 3) 4) (Z.shiftr y 4)))
           (String (b64Char (Z.shiftl (Z.land y 15) 2)) "="))
  | a :: b :: c :: rest =>
      let x := byteZ a in
      let y := byteZ b in
      let z := byteZ c in
      String (b64Char (Z.shiftr x 2))
        (String (b64Char (Z.lor (Z.shiftl (Z.land x 3) 4) (Z.shiftr y 4)))
           (String (b64Char (Z.lor (Z.shiftl (Z.land y 15) 2) (Z.shiftr z 6)))
              (String (b64Char (Z.land z 63)) (base64 rest))))
  end.

End Js.

(** ** Data model *)

(** [cameraConfig.videoConfig]: the options the delegate reads. *)
Module VideoConfig.
Record t := {
  source : option string;
  stillImageSource : option string;
  maxWidth : option Z;
  maxHeight : option Z;
  maxFPS : option Z;
  maxBitrate : option Z;
  minBitrate : option Z;
  preserveRatio : option string;
  vcodec : option string;
  packetSize : option Z;
  audio : bool;
  vflip : bool;
  hflip : bool;
  mapvideo : option string;
  mapaudio : option string;
  videoFilter : option string;
  additionalCommandline : option string;
  debug : bool
}.
End VideoConfig.

Module CameraConfig.
Record t := {
  name : string;
  videoConfig : VideoConfig.t
}.
End CameraConfig.

Definition Buffer := list byte.

(** [SessionInfo]: what a negotiation leaves for the start request. *)
Module SessionInfo.
Record t := {
  address : string;
  videoPort : Z;
  videoReturnPort : Z;
  videoCryptoSuite : Z;
  videoSRTP : Buffer;
  videoSSRC : Z;
  audioPort : Z;
  audioReturnPort : Z;
  audioCryptoSuite : Z;
  audioSRTP : Buffer;
  audioSSRC : Z
}.
End SessionInfo.

(** Modelled from the spec: [FfmpegProcess] (./ffmpeg, the process
    supervisor) is not among the sources.  The handle keeps the arguments
    [handleStreamRequest] constructs it with; constructing it launches the
    transcoder with the given command ([Launch] below), and what its
    [stop()] does is left open (see [stopThrows] in section [Delegate]). *)
Module FfmpegProcess.
Record t := {
  name : string;
  command : string;
  sessionId : string;
  returnPort : Z;
  debug : bool;
  videoProcessor : string
}.
End FfmpegProcess.

(** The fields of [StreamingDelegate]; [hap], [log] and [controller] are
    interfaces to the host and carry no state of the delegate. *)
Module This.
Record StreamingDelegate := {
  debug : bool;
  ffmpegOpt : VideoConfig.t;
  videoProcessor : string;
  audio : bool;
  vcodec : string;
  packetSize : Z;
  fps : option Z;
  maxBitrate : option Z;
  minBitrate : option Z;
  vflip : bool;
  hflip : bool;
  mapvideo : string;
  mapaudio : string;
  videoFilter : option string;   (* [None] is [null] *)
  additionalCommandline : string;
  interfaceName : string;
  name : string;
  pendingSessions : gmap string SessionInfo.t;
  ongoingSessions : gmap string FfmpegProcess.t
}.
End This.

Abbreviation StreamingDelegate := This.StreamingDelegate.

Definition setPendingSessions (d : StreamingDelegate) (m : gmap string SessionInfo.t) :=
  {| This.debug := This.debug d; This.ffmpegOpt := This.ffmpegOpt d; This.videoProcessor := This.videoProcessor d;
     This.audio := This.audio d; This.vcodec := This.vcodec d; This.packetSize := This.packetSize d; This.fps := This.fps d;
     This.maxBitrate := This.maxBitrate d; This.minBitrate := This.minBitrate d; This.vflip := This.vflip d;
     This.hflip := This.hflip d; This.mapvideo := This.mapvideo d; This.mapaudio := This.mapaudio d;
     This.videoFilter := This.videoFilter d; This.additionalCommandline := This.additionalCommandline d;
     This.interfaceName := This.interfaceName d; This.name := This.name d;
     This.pendingSessions := m; This.ongoingSessions := This.ongoingSessions d |}.

Definition setOngoingSessions (d : StreamingDelegate) (m : gmap string FfmpegProcess.t) :=
  {| This.debug := This.debug d; This.ffmpegOpt := This.ffmpegOpt d; This.videoProcessor := This.videoProcessor d;
     This.audio := This.audio d; This.vcodec := This.vcodec d; This.packetSize := This.packetSize d; This.fps := This.fps d;
     This.maxBitrate := This.maxBitrate d; This.minBitrate := This.minBitrate d; This.vflip := This.vflip d;
     This.hflip := This.hflip d; This.mapvideo := This.mapvideo d; This.mapaudio := This.mapaudio d;
     This.videoFilter := This.videoFilter d; This.additionalCommandline := This.additionalCommandline d;
     This.interfaceName := This.interfaceName d; This.name := This.name d;
     This.pendingSessions := This.pendingSessions d; This.ongoingSessions := m |}.

Inductive JsError :=
| TypeError (msg : string)
| Error (msg : string)
| SystemError (code : string).

(** Requests of the HAP camera controller. *)
Module SnapshotRequest.
Record t := { width : Z; height : Z }.
End SnapshotRequest.

Module VideoInfo.
Record t := {
  width : Z;
  height : Z;
  fps : Z;
  pt : Z;
  max_bit_rate : Z;
  mtu : Z
}.
End VideoInfo.

Module AudioInfo.
Record t := {
  pt : Z;
  max_bit_rate : Z;
  sample_rate : Z
}.
End AudioInfo.

Inductive StreamingRequest :=
| START (sessionID : string) (video : VideoInfo.t) (audio : AudioInfo.t)
| RECONFIGURE (sessionID : string) (video : string)
| STOP (sessionID : string).

Module Source.
Record t := {
  port : Z;
  srtpCryptoSuite : Z;
  srtp_key : Buffer;
  srtp_salt : Buffer
}.
End Source.

Module PrepareStreamRequest.
Record t := {
  sessionID : string;
  targetAddress : string;
  addressVersion : string;
  video : Source.t;
  audio : Source.t
}.
End PrepareStreamRequest.

Module ResponseSource.
Record t := {
  port : Z;
  ssrc : Z;
  srtp_key : Buffer;
  srtp_salt : Buffer
}.
End ResponseSource.

Module PrepareStreamResponse.
Record t := {
  address : string;
  video : ResponseSource.t;
  audio : ResponseSource.t
}.
End PrepareStreamResponse.

(** What the host supplies while a stream is prepared: the two ports
    [getPort()] resolves to, the two values of
    [generateSynchronisationSource()], and [ip.address], which throws
    ([None]) when the interface has no address of the requested family. *)
Record PrepareEnv := {
  getPort1 : Z;
  getPort2 : Z;
  generateSynchronisationSource1 : Z;
  generateSynchronisationSource2 : Z;
  ipAddress : string -> string -> option string
}.

(** What a snapshot's child process does after [spawn]: the events it
    emits, in order.  Node reports a process that could not be spawned
    through the child's ['error'] event. *)
Inductive ChildEvent :=
| Data (chunk : Buffer)
| ChildError (e : JsError)
| Close.

Inductive SpawnOutcome :=
| SpawnThrows (e : JsError)
| Spawned (events : list ChildEvent).

(** Observable effects, in the order the code performs them. *)
Inductive Effect :=
| Log (msg : string)
| LogWith (msg : string) (extra : string)
| LogJsError (e : JsError)
| LogError (msg : string)
| LogErrorJs (e : JsError)
| LogDebug (msg : string)
| Launch (p : FfmpegProcess.t)
| StopProcess (p : FfmpegProcess.t)
| SpawnSnapshot (processor : string) (args : list string)
| SnapshotCallback (result : JsError + Buffer)
| PrepareCallback (response : PrepareStreamResponse.t)
| StreamCallback.

(** ** Construction *)

(** [new StreamingDelegate(hap, cameraConfig, log, videoProcessor,
    interfaceName, api)].  [pathToFfmpeg] is what the ffmpeg-for-homebridge
    package exports.  The session dictionaries start empty. *)
Definition constructor (cameraConfig : CameraConfig.t)
    (videoProcessor interfaceName pathToFfmpeg : option string)
  : JsError + StreamingDelegate :=
  let ffmpegOpt := CameraConfig.videoConfig cameraConfig in
  let maxBitrate := VideoConfig.maxBitrate ffmpegOpt in
  let minBitrate := VideoConfig.minBitrate ffmpegOpt in
  let minBitrate :=
    if Js.truthy maxBitrate && Js.gt minBitrate maxBitrate
    then maxBitrate else minBitrate in
  if negb (Js.truthyStr (VideoConfig.source ffmpegOpt))
  then inl (Error "Missing source for camera.")
  else inr
    {| This.debug := VideoConfig.debug ffmpegOpt;
       This.ffmpegOpt := ffmpegOpt;
       This.videoProcessor := Js.orStr (Js.orOpt videoProcessor pathToFfmpeg) "ffmpeg";
       This.audio := VideoConfig.audio ffmpegOpt;
       This.vcodec := Js.orStr (VideoConfig.vcodec ffmpegOpt) "libx264";
       This.packetSize := Js.orNum (VideoConfig.packetSize ffmpegOpt) 1316;
       This.fps := VideoConfig.maxFPS ffmpegOpt;
       This.maxBitrate := maxBitrate;
       This.minBitrate := minBitrate;
       This.vflip := VideoConfig.vflip ffmpegOpt;
       This.hflip := VideoConfig.hflip ffmpegOpt;
       This.mapvideo := Js.orStr (VideoConfig.mapvideo ffmpegOpt) "0:0";
       This.mapaudio := Js.orStr (VideoConfig.mapaudio ffmpegOpt) "0:1";
       This.videoFilter := Js.orOpt (VideoConfig.videoFilter ffmpegOpt) None;
       This.additionalCommandline :=
         Js.orStr (VideoConfig.additionalCommandline ffmpegOpt)
           "-preset ultrafast -tune zerolatency";
       This.interfaceName := Js.orStr interfaceName "public";
       This.name := CameraConfig.name cameraConfig;
       This.pendingSessions := ∅;
       This.ongoingSessions := ∅ |}.

(** [cameraConfig] as the platform hands it over: configTypes.ts declares
    [videoConfig] optional. *)
Module CameraConfigInput.
Record t := {
  name : string;
  videoConfig : option VideoConfig.t
}.
End CameraConfigInput.

(** The constructor on such a configuration.  Without [videoConfig],
    [this.ffmpegOpt] is [undefined] and the first property read of it,
    [this.ffmpegOpt.audio], throws; with it, the constructor runs as
    above. *)
Definition newStreamingDelegate (cameraConfig : CameraConfigInput.t)
    (videoProcessor interfaceName pathToFfmpeg : option string)
  : JsError + StreamingDelegate :=
  match CameraConfigInput.videoConfig cameraConfig with
  | None => inl (TypeError "Cannot read property 'audio' of undefined")
  | Some videoConfig =>
      constructor
        {| CameraConfig.name := CameraConfigInput.name cameraConfig;
           CameraConfig.videoConfig := videoConfig |}
        videoProcessor interfaceName pathToFfmpeg
  end.

(** ** Command building shared by the snapshot and the stream *)

(** The [switch (this.ffmpegOpt.preserveRatio)] both handlers contain. *)
Definition resolution (preserveRatio : option string) (width height : option Z) : string :=
  match preserveRatio with
  | Some r =>
      if String.eqb r "W" then Js.numStr width +:+ ":-1"
      else if String.eqb r "H" then "-1:" +:+ Js.numStr height
      else Js.numStr width +:+ ":" +:+ Js.numStr height
  | None => Js.numStr width +:+ ":" +:+ Js.numStr height
  end.

(** [filter === '' || filter === null ? 'scale=' + resolution : filter]:
    always a string, so the later test [videoFilter !== null] holds. *)
Definition effectiveFilter (filter : option string) (resolution : string) : string :=
  match filter with
  | Some f => if String.eqb f "" then "scale=" +:+ resolution else f
  | None => "scale=" +:+ resolution
  end.

(** [(vf.length > 0 ? ' -vf ' + vf.join(',') : '')]. *)
Definition vfArgs (vf : list string) : string :=
  if (0 <? length vf)%nat then " -vf " +:+ Js.join "," vf else "".

(** ** The snapshot command *)

Module Snapshot.
Section Request.
Variable d : StreamingDelegate.
Variable request : SnapshotRequest.t.

Definition width : option Z :=
  if Js.gt (Some (SnapshotRequest.width request)) (VideoConfig.maxWidth (This.ffmpegOpt d))
  then VideoConfig.maxWidth (This.ffmpegOpt d)
  else Some (SnapshotRequest.width request).

Definition height : option Z :=
  if Js.gt (Some (SnapshotRequest.height request)) (VideoConfig.maxHeight (This.ffmpegOpt d))
  then VideoConfig.maxHeight (This.ffmpegOpt d)
  else Some (SnapshotRequest.height request).

Definition resolution : string :=
  resolution (VideoConfig.preserveRatio (This.ffmpegOpt d)) width height.

Definition videoFilter : string := effectiveFilter (This.videoFilter d) resolution.

Definition vf : list string :=
  if negb (String.eqb videoFilter "none")
  then (if This.hflip d then ["hflip"] else [])
         ++ (if This.vflip d then ["vflip"] else [])
         ++ [videoFilter]
  else [].

Definition imageSource : option string :=
  Js.orOpt (VideoConfig.stillImageSource (This.ffmpegOpt d)) (VideoConfig.source (This.ffmpegOpt d)).

Definition command : string :=
  Js.str imageSource +:+ " -frames:v 1" +:+ vfArgs vf +:+ " -f image2 -".

(** The handlers registered on the child: ['data'] grows the image
    buffer, ['error'] only logs, ['close'] calls back with the buffer. *)
Fixpoint onEvents (imageBuffer : Buffer) (events : list ChildEvent) : list Effect :=
  match events with
  | [] => []
  | Data data :: rest => onEvents (imageBuffer ++ data) rest
  | ChildError error :: rest =>
      Log "An error occurred while making snapshot request"
        :: (if This.debug d then [LogJsError error] else [])
        ++ onEvents imageBuffer rest
  | Close :: rest =>
      SnapshotCallback (inr imageBuffer) :: onEvents imageBuffer rest
  end.

Definition handleSnapshotRequest (outcome : SpawnOutcome) : list Effect :=
  match outcome with
  | Spawned events =>
      [SpawnSnapshot (This.videoProcessor d) (Js.split command);
       Log ("Snapshot from " +:+ This.name d +:+ " at " +:+ resolution)]
        ++ (if This.debug d
            then [Log (This.name d +:+ " snapshot command: ffmpeg " +:+ Js.str imageSource
                         +:+ " -frames:v 1" +:+ vfArgs vf +:+ " -f image2 -")]
            else [])
        ++ onEvents [] events
  | SpawnThrows err =>
      [LogErrorJs err; SnapshotCallback (inl err)]
  end.

End Request.
End Snapshot.

(** ** The stream command *)

Module Start.
Section Request.
Variable d : StreamingDelegate.
Variable video : VideoInfo.t.
Variable audio : AudioInfo.t.

Definition width : option Z :=
  if Js.gt (Some (VideoInfo.width video)) (VideoConfig.maxWidth (This.ffmpegOpt d))
  then VideoConfig.maxWidth (This.ffmpegOpt d)
  else Some (VideoInfo.width video).

Definition height : option Z :=
  if Js.gt (Some (VideoInfo.height video)) (VideoConfig.maxHeight (This.ffmpegOpt d))
  then VideoConfig.maxHeight (This.ffmpegOpt d)
  else Some (VideoInfo.height video).

Definition fps : option Z :=
  if Js.gt (Some (VideoInfo.fps video)) (This.fps d)
  then This.fps d
  else Some (VideoInfo.fps video).

Definition resolution : string :=
  resolution (VideoConfig.preserveRatio (This.ffmpegOpt d)) width height.

Definition videoBitrate : option Z :=
  let videoBitrate := Some (VideoInfo.max_bit_rate video) in
  if Js.truthy (This.maxBitrate d) && Js.gt videoBitrate (This.maxBitrate d)
  then This.maxBitrate d
  else if Js.truthy (This.minBitrate d) && Js.lt videoBitrate (This.minBitrate d)
  then This.minBitrate d
  else videoBitrate.

Definition audioBitrate : option Z :=
  let audioBitrate := Some (AudioInfo.max_bit_rate audio) in
  if Js.truthy (This.maxBitrate d) && Js.gt audioBitrate (This.maxBitrate d)
  then This.maxBitrate d
  else audioBitrate.

Definition mtu : Z := Js.orNum (Some (This.packetSize d)) (VideoInfo.mtu video).

Definition videoFilter : string := effectiveFilter (This.videoFilter d) resolution.

Definition vf : list string :=
  if negb (String.eqb videoFilter "none") && negb (String.eqb (This.vcodec d) "copy")
  then [videoFilter]
         ++ (if This.hflip d then ["hflip"] else [])
         ++ (if This.vflip d then ["vflip"] else [])
  else [].

Definition logLine : string :=
  "Starting " +:+ This.name d +:+ " video stream (" +:+ Js.numStr width +:+ "x"
    +:+ Js.numStr height +:+ ", " +:+ Js.numStr fps +:+ " fps, "
    +:+ Js.numStr videoBitrate +:+ " kbps, " +:+ pretty mtu +:+ " mtu)...".

Definition ffmpegVideoArgs : string :=
  " -map " +:+ This.mapvideo d +:+
  " -vcodec " +:+ This.vcodec d +:+
  " -pix_fmt yuv420p" +:+
  " -r " +:+ Js.numStr fps +:+
  " -f rawvideo" +:+
  " " +:+ This.additionalCommandline d +:+
  vfArgs vf +:+
  " -b:v " +:+ Js.numStr videoBitrate +:+ "k" +:+
  " -bufsize " +:+ Js.numStr (Z.mul 2 <$> videoBitrate) +:+ "k" +:+
  " -maxrate " +:+ Js.numStr videoBitrate +:+ "k" +:+
  " -payload_type " +:+ pretty (VideoInfo.pt video).

Variable sessionInfo : SessionInfo.t.

Definition ffmpegVideoStream : string :=
  " -ssrc " +:+ pretty (SessionInfo.videoSSRC sessionInfo) +:+
  " -f rtp" +:+
  " -srtp_out_suite AES_CM_128_HMAC_SHA1_80" +:+
  " -srtp_out_params " +:+ Js.base64 (SessionInfo.videoSRTP sessionInfo) +:+
  " srtp://" +:+ SessionInfo.address sessionInfo +:+ ":"
    +:+ pretty (SessionInfo.videoPort sessionInfo) +:+
  "?rtcpport=" +:+ pretty (SessionInfo.videoPort sessionInfo)
    +:+ "&localrtcpport=" +:+ pretty (SessionInfo.videoPort sessionInfo)
    +:+ "&pkt_size=" +:+ pretty mtu.

Definition ffmpegAudioArgs : string :=
  " -map " +:+ This.mapaudio d +:+
  " -acodec libfdk_aac" +:+
  " -profile:a aac_eld" +:+
  " -flags +global_header" +:+
  " -f null" +:+
  " -ar " +:+ pretty (AudioInfo.sample_rate audio) +:+ "k" +:+
  " -b:a " +:+ Js.numStr audioBitrate +:+ "k" +:+
  " -bufsize " +:+ Js.numStr audioBitrate +:+ "k" +:+
  " -ac 1" +:+
  " -payload_type " +:+ pretty (AudioInfo.pt audio).

Definition ffmpegAudioStream : string :=
  " -ssrc " +:+ pretty (SessionInfo.audioSSRC sessionInfo) +:+
  " -f rtp" +:+
  " -srtp_out_suite AES_CM_128_HMAC_SHA1_80" +:+
  " -srtp_out_params " +:+ Js.base64 (SessionInfo.audioSRTP sessionInfo) +:+
  " srtp://" +:+ SessionInfo.address sessionInfo +:+ ":"
    +:+ pretty (SessionInfo.audioPort sessionInfo) +:+
  "?rtcpport=" +:+ pretty (SessionInfo.audioPort sessionInfo)
    +:+ "&localrtcpport=" +:+ pretty (SessionInfo.audioPort sessionInfo)
    +:+ "&pkt_size=188".

Definition fcmd : string :=
  Js.str (VideoConfig.source (This.ffmpegOpt d))
    +:+ ffmpegVideoArgs
    +:+ ffmpegVideoStream
    +:+ (if This.audio d then ffmpegAudioArgs +:+ ffmpegAudioStream else "")
    +:+ (if This.debug d then " -loglevel level+verbose" else "").

Definition ffmpeg (sessionId : string) : FfmpegProcess.t :=
  {| FfmpegProcess.name := This.name d;
     FfmpegProcess.command := fcmd;
     FfmpegProcess.sessionId := sessionId;
     FfmpegProcess.returnPort := SessionInfo.videoReturnPort sessionInfo;
     FfmpegProcess.debug := This.debug d;
     FfmpegProcess.videoProcessor := This.videoProcessor d |}.

End Request.
End Start.

(** ** Handlers that change the delegate *)

(** A handler runs on a world: the delegate and the effects so far.  It
    completes normally or throws, as a JavaScript function does. *)
Record World := {
  self : StreamingDelegate;
  effects : list Effect
}.

Inductive Completion (A : Type) :=
| Normal (a : A)
| Throw (e : JsError).

Arguments Normal {A} a.
Arguments Throw {A} e.

Definition M (A : Type) : Type := World -> Completion A * World.

Definition ret {A} (a : A) : M A := fun w => (Normal a, w).

Definition bind {A B} (m : M A) (k : A -> M B) : M B :=
  fun w =>
    match m w with
    | (Normal a, w') => k a w'
    | (Throw e, w') => (Throw e, w')
    end.

Definition throw {A} (e : JsError) : M A := fun w => (Throw e, w).

(** [try { body } catch (e) { handler(e) }]: what the body did before it
    threw stays done. *)
Definition tryCatch {A} (body : M A) (handler : JsError -> M A) : M A :=
  fun w =>
    match body w with
    | (Normal a, w') => (Normal a, w')
    | (Throw e, w') => handler e w'
    end.

Definition this : M StreamingDelegate := fun w => (Normal (self w), w).

Definition emit (e : Effect) : M unit :=
  fun w => (Normal tt, {| self := self w; effects := effects w ++ [e] |}).

Definition update (f : StreamingDelegate -> StreamingDelegate) : M unit :=
  fun w => (Normal tt, {| self := f (self w); effects := effects w |}).

Global Instance M_ret : MRet M := @ret.
Global Instance M_bind : MBind M := fun A B k m => bind m k.

(** The first property read ([o.field]) of a value looked up in a
    dictionary: the value is [undefined] when the dictionary has no such
    key, and reading a property of [undefined] throws. *)
Definition defined {A} (o : option A) (field : string) : M A :=
  match o with
  | Some v => ret v
  | None => throw (TypeError ("Cannot read property '" +:+ field +:+ "' of undefined"))
  end.

Section Delegate.

(** [FfmpegProcess.stop()] is defined in ./ffmpeg, which is not among the
    sources: whether it throws on a given handle is a parameter ([None]: it
    returns normally, having stopped the process). *)
Variable stopThrows : FfmpegProcess.t -> option JsError.

Definition stop (ffmpegProcess : FfmpegProcess.t) : M unit :=
  match stopThrows ffmpegProcess with
  | Some e => throw e
  | None => emit (StopProcess ffmpegProcess)
  end.

Definition stopStream (sessionId : string) : M unit :=
  tryCatch
    (d ← this;
     match This.ongoingSessions d !! sessionId with
     | Some ffmpegProcess => stop ffmpegProcess
     | None => ret tt
     end ;;
     update (fun d => setOngoingSessions d (delete sessionId (This.ongoingSessions d))) ;;
     d ← this;
     emit (Log ("Stopped " +:+ This.name d +:+ " video stream!")))
    (fun e =>
       emit (LogError "Error occurred terminating the video process!") ;;
       emit (LogErrorJs e)).

Definition handleStreamRequest (request : StreamingRequest) : M unit :=
  match request with
  | START sessionId video audio =>
      d ← this;
      sessionInfo ← defined (This.pendingSessions d !! sessionId) "address";
      emit (LogWith (Start.logLine d video)
              (if This.debug d then "debug enabled" else "")) ;;
      let ffmpeg := Start.ffmpeg d video audio sessionInfo sessionId in
      emit (Launch ffmpeg) ;;
      update (fun d => setOngoingSessions d (<[sessionId := ffmpeg]> (This.ongoingSessions d))) ;;
      update (fun d => setPendingSessions d (delete sessionId (This.pendingSessions d)))
  | RECONFIGURE sessionId video =>
      emit (LogDebug ("Received (unsupported) request to reconfigure to: " +:+ video)) ;;
      emit StreamCallback
  | STOP sessionId =>
      stopStream sessionId ;;
      emit StreamCallback
  end.

(** The handler registered for [APIEvent.SHUTDOWN], over the keys the
    [for ... in] loop visits. *)
Fixpoint shutdown (sessions : list string) : M unit :=
  match sessions with
  | [] => ret tt
  | session :: rest => stopStream session ;; shutdown rest
  end.

End Delegate.

Definition prepareStream (env : PrepareEnv) (request : PrepareStreamRequest.t) : M unit :=
  let sessionId := PrepareStreamRequest.sessionID request in
  let targetAddress := PrepareStreamRequest.targetAddress request in
  let video := PrepareStreamRequest.video request in
  let videoPort := Source.port video in
  let videoReturnPort := getPort1 env in
  let videoCryptoSuite := Source.srtpCryptoSuite video in
  let videoSrtpKey := Source.srtp_key video in
  let videoSrtpSalt := Source.srtp_salt video in
  let videoSSRC := generateSynchronisationSource1 env in
  let audio := PrepareStreamRequest.audio request in
  let audioPort := Source.port audio in
  let audioReturnPort := getPort2 env in
  let audioCryptoSuite := Source.srtpCryptoSuite audio in
  let audioSrtpKey := Source.srtp_key audio in
  let audioSrtpSalt := Source.srtp_salt audio in
  let audioSSRC := generateSynchronisationSource2 env in
  let sessionInfo :=
    {| SessionInfo.address := targetAddress;
       SessionInfo.videoPort := videoPort;
       SessionInfo.videoReturnPort := videoReturnPort;
       SessionInfo.videoCryptoSuite := videoCryptoSuite;
       SessionInfo.videoSRTP := videoSrtpKey ++ videoSrtpSalt;
       SessionInfo.videoSSRC := videoSSRC;
       SessionInfo.audioPort := audioPort;
       SessionInfo.audioReturnPort := audioReturnPort;
       SessionInfo.audioCryptoSuite := audioCryptoSuite;
       SessionInfo.audioSRTP := audioSrtpKey ++ audioSrtpSalt;
       SessionInfo.audioSSRC := audioSSRC |} in
  d ← this;
  currentAddress ←
    match ipAddress env (This.interfaceName d) (PrepareStreamRequest.addressVersion request) with
    | Some a => ret a
    | None =>
        emit (LogError ("Unable to get " +:+ PrepareStreamRequest.addressVersion request
                          +:+ " address for " +:+ This.interfaceName d
                          +:+ "! Falling back to public.")) ;;
        (* the fallback is not guarded: its exception leaves the handler *)
        match ipAddress env "public" (PrepareStreamRequest.addressVersion request) with
        | Some a => ret a
        | None => throw (Error "ip.address")
        end
    end;
  let response :=
    {| PrepareStreamResponse.address := currentAddress;
       PrepareStreamResponse.video :=
         {| ResponseSource.port := videoReturnPort;
            ResponseSource.ssrc := videoSSRC;
            ResponseSource.srtp_key := videoSrtpKey;
            ResponseSource.srtp_salt := videoSrtpSalt |};
       PrepareStreamResponse.audio :=
         {| ResponseSource.port := audioReturnPort;
            ResponseSource.ssrc := audioSSRC;
            ResponseSource.srtp_key := audioSrtpKey;
            ResponseSource.srtp_salt := audioSrtpSalt |} |} in
  update (fun d => setPendingSessions d (<[sessionId := sessionInfo]> (This.pendingSessions d))) ;;
  emit (PrepareCallback response).

(** The outcome of a promise the handler awaits. *)
Inductive Awaited (A : Type) :=
| Resolved (a : A)
| Rejected (e : JsError).

Arguments Resolved {A} a.
Arguments Rejected {A} e.

(** [prepareStream] with its two [await getPort()] spelled out: a
    rejection leaves the handler at that line, before the second port is
    asked for and before anything is logged, stored or answered; with both
    ports resolved the handler runs as above. *)
Definition prepareStreamAwaiting (videoReturnPort audioReturnPort : Awaited Z)
    (videoSSRC audioSSRC : Z) (ipAddress : string -> string -> option string)
    (request : PrepareStreamRequest.t) : M unit :=
  match videoReturnPort with
  | Rejected e => throw e
  | Resolved videoReturnPort =>
      match audioReturnPort with
      | Rejected e => throw e
      | Resolved audioReturnPort =>
          prepareStream
            {| getPort1 := videoReturnPort;
               getPort2 := audioReturnPort;
               generateSynchronisationSource1 := videoSSRC;
               generateSynchronisationSource2 := audioSSRC;
               ipAddress := ipAddress |}
            request
      end
  end.

(** ** Session bookkeeping *)

(** No identifier is both pending and ongoing. *)
Definition sessionsDisjoint (d : StreamingDelegate) : Prop :=
  dom (This.pendingSessions d) ## dom (This.ongoingSessions d).

Global Instance sessionsDisjoint_dec d : Decision (sessionsDisjoint d).
Proof. unfold sessionsDisjoint. apply _. Defined.

(** The host delivers one request at a time; a handler that throws leaves
    the delegate as it was at the throw. *)
Inductive Event :=
| Prepare (env : PrepareEnv) (request : PrepareStreamRequest.t)
| Stream (request : StreamingRequest).

Definition handle (stopThrows : FfmpegProcess.t -> option JsError) (ev : Event) : M unit :=
  match ev with
  | Prepare env request => prepareStream env request
  | Stream request => handleStreamRequest stopThrows request
  end.

Fixpoint run (stopThrows : FfmpegProcess.t -> option JsError) (evs : list Event) (w : World) : World :=
  match evs with
  | [] => w
  | ev :: rest => run stopThrows rest (snd (handle stopThrows ev w))
  end.

(** The negotiations of an event sequence are fresh when none of them
    arrives for an identifier that is ongoing at that moment. *)
Fixpoint freshNegotiations (stopThrows : FfmpegProcess.t -> option JsError)
    (evs : list Event) (w : World) : Prop :=
  match evs with
  | [] => True
  | ev :: rest =>
      match ev with
      | Prepare _ request =>
          This.ongoingSessions (self w) !! PrepareStreamRequest.sessionID request = None
      | Stream _ => True
      end
      /\ freshNegotiations stopThrows rest (snd (handle stopThrows ev w))
  end.

(** [request.sessionID]. *)
Definition sessionID (request : StreamingRequest) : string :=
  match request with
  | START sessionID _ _ => sessionID
  | RECONFIGURE sessionID _ => sessionID
  | STOP sessionID => sessionID
  end.

Definition setVcodec (d : StreamingDelegate) (c : string) : StreamingDelegate :=
  {| This.debug := This.debug d; This.ffmpegOpt := This.ffmpegOpt d;
     This.videoProcessor := This.videoProcessor d; This.audio := This.audio d;
     This.vcodec := c; This.packetSize := This.packetSize d; This.fps := This.fps d;
     This.maxBitrate := This.maxBitrate d; This.minBitrate := This.minBitrate d;
     This.vflip := This.vflip d; This.hflip := This.hflip d;
     This.mapvideo := This.mapvideo d; This.mapaudio := This.mapaudio d;
     This.videoFilter := This.videoFilter d;
     This.additionalCommandline := This.additionalCommandline d;
     This.interfaceName := This.interfaceName d; This.name := This.name d;
     This.pendingSessions := This.pendingSessions d;
     This.ongoingSessions := This.ongoingSessions d |}.

(** ** Sample cameras and requests *)

Module Sample.

(** A camera with a source and ceilings of 1280x720, 30 fps, 300 kbps and
    a floor of 100 kbps; both flips are on. *)
Definition videoConfig : VideoConfig.t :=
  {| VideoConfig.source := Some "-i rtsp://cam/live";
     VideoConfig.stillImageSource := None;
     VideoConfig.maxWidth := Some 1280;
     VideoConfig.maxHeight := Some 720;
     VideoConfig.maxFPS := Some 30;
     VideoConfig.maxBitrate := Some 300;
     VideoConfig.minBitrate := Some 100;
     VideoConfig.preserveRatio := None;
     VideoConfig.vcodec := None;
     VideoConfig.packetSize := None;
     VideoConfig.audio := false;
     VideoConfig.vflip := true;
     VideoConfig.hflip := true;
     VideoConfig.mapvideo := None;
     VideoConfig.mapaudio := None;
     VideoConfig.videoFilter := None;
     VideoConfig.additionalCommandline := None;
     VideoConfig.debug := false |}.

Definition withVcodec (c : VideoConfig.t) (v : option string) : VideoConfig.t :=
  {| VideoConfig.source := VideoConfig.source c;
     VideoConfig.stillImageSource := VideoConfig.stillImageSource c;
     VideoConfig.maxWidth := VideoConfig.maxWidth c;
     VideoConfig.maxHeight := VideoConfig.maxHeight c;
     VideoConfig.maxFPS := VideoConfig.maxFPS c;
     VideoConfig.maxBitrate := VideoConfig.maxBitrate c;
     VideoConfig.minBitrate := VideoConfig.minBitrate c;
     VideoConfig.preserveRatio := VideoConfig.preserveRatio c;
     VideoConfig.vcodec := v;
     VideoConfig.packetSize := VideoConfig.packetSize c;
     VideoConfig.audio := VideoConfig.audio c;
     VideoConfig.vflip := VideoConfig.vflip c;
     VideoConfig.hflip := VideoConfig.hflip c;
     VideoConfig.mapvideo := VideoConfig.mapvideo c;
     VideoConfig.mapaudio := VideoConfig.mapaudio c;
     VideoConfig.videoFilter := VideoConfig.videoFilter c;
     VideoConfig.additionalCommandline := VideoConfig.additionalCommandline c;
     VideoConfig.debug := VideoConfig.debug c |}.

Definition withVideoFilter (c : VideoConfig.t) (f : option string) : VideoConfig.t :=
  {| VideoConfig.source := VideoConfig.source c;
     VideoConfig.stillImageSource := VideoConfig.stillImageSource c;
     VideoConfig.maxWidth := VideoConfig.maxWidth c;
     VideoConfig.maxHeight := VideoConfig.maxHeight c;
     VideoConfig.maxFPS := VideoConfig.maxFPS c;
     VideoConfig.maxBitrate := VideoConfig.maxBitrate c;
     VideoConfig.minBitrate := VideoConfig.minBitrate c;
     VideoConfig.preserveRatio := VideoConfig.preserveRatio c;
     VideoConfig.vcodec := VideoConfig.vcodec c;
     VideoConfig.packetSize := VideoConfig.packetSize c;
     VideoConfig.audio := VideoConfig.audio c;
     VideoConfig.vflip := VideoConfig.vflip c;
     VideoConfig.hflip := VideoConfig.hflip c;
     VideoConfig.mapvideo := VideoConfig.mapvideo c;
     VideoConfig.mapaudio := VideoConfig.mapaudio c;
     VideoConfig.videoFilter := f;
     VideoConfig.additionalCommandline := VideoConfig.additionalCommandline c;
     VideoConfig.debug := VideoConfig.debug c |}.

Definition withBitrates (c : VideoConfig.t) (lo hi : option Z) : VideoConfig.t :=
  {| VideoConfig.source := VideoConfig.source c;
     VideoConfig.stillImageSource := VideoConfig.stillImageSource c;
     VideoConfig.maxWidth := VideoConfig.maxWidth c;
     VideoConfig.maxHeight := VideoConfig.maxHeight c;
     VideoConfig.maxFPS := VideoConfig.maxFPS c;
     VideoConfig.maxBitrate := hi;
     VideoConfig.minBitrate := lo;
     VideoConfig.preserveRatio := VideoConfig.preserveRatio c;
     VideoConfig.vcodec := VideoConfig.vcodec c;
     VideoConfig.packetSize := VideoConfig.packetSize c;
     VideoConfig.audio := VideoConfig.audio c;
     VideoConfig.vflip := VideoConfig.vflip c;
     VideoConfig.hflip := VideoConfig.hflip c;
     VideoConfig.mapvideo := VideoConfig.mapvideo c;
     VideoConfig.mapaudio := VideoConfig.mapaudio c;
     VideoConfig.videoFilter := VideoConfig.videoFilter c;
     VideoConfig.additionalCommandline := VideoConfig.additionalCommandline c;
     VideoConfig.debug := VideoConfig.debug c |}.

Definition camera (c : VideoConfig.t) : CameraConfig.t :=
  {| CameraConfig.name := "Porch"; CameraConfig.videoConfig := c |}.

(** The delegate the constructor builds for a configuration.  The sample
    configurations all have a source; [blank] only fills the other branch. *)
Definition blank (c : VideoConfig.t) : StreamingDelegate :=
  {| This.debug := false; This.ffmpegOpt := c; This.videoProcessor := "";
     This.audio := false; This.vcodec := ""; This.packetSize := 0;
     This.fps := None; This.maxBitrate := None; This.minBitrate := None;
     This.vflip := false; This.hflip := false; This.mapvideo := "";
     This.mapaudio := ""; This.videoFilter := None;
     This.additionalCommandline := ""; This.interfaceName := "";
     This.name := ""; This.pendingSessions := ∅; This.ongoingSessions := ∅ |}.

Definition delegate (c : VideoConfig.t) : StreamingDelegate :=
  match constructor (camera c) None None None with
  | inr d => d
  | inl _ => blank c
  end.

Definition world (c : VideoConfig.t) : World :=
  {| self := delegate c; effects := [] |}.

Definition neverThrows : FfmpegProcess.t -> option JsError := fun _ => None.

Definition snapshot : SnapshotRequest.t :=
  {| SnapshotRequest.width := 1920; SnapshotRequest.height := 1080 |}.

Definition video : VideoInfo.t :=
  {| VideoInfo.width := 1920; VideoInfo.height := 1080; VideoInfo.fps := 30;
     VideoInfo.pt := 99; VideoInfo.max_bit_rate := 299; VideoInfo.mtu := 1378 |}.

Definition audio : AudioInfo.t :=
  {| AudioInfo.pt := 110; AudioInfo.max_bit_rate := 24; AudioInfo.sample_rate := 16 |}.

Definition source (port : Z) : Source.t :=
  {| Source.port := port; Source.srtpCryptoSuite := 0;
     Source.srtp_key := ["k"; "e"; "y"]%byte; Source.srtp_salt := ["s"; "a"; "l"]%byte |}.

Definition prepare (sessionID : string) : PrepareStreamRequest.t :=
  {| PrepareStreamRequest.sessionID := sessionID;
     PrepareStreamRequest.targetAddress := "192.168.1.20";
     PrepareStreamRequest.addressVersion := "ipv4";
     PrepareStreamRequest.video := source 50000;
     PrepareStreamRequest.audio := source 50002 |}.

Definition env : PrepareEnv :=
  {| getPort1 := 40000; getPort2 := 40001;
     generateSynchronisationSource1 := 1; generateSynchronisationSource2 := 2;
     ipAddress := fun _ _ => Some "192.168.1.10" |}.

(** The record the sample negotiation stores. *)
Definition sessionInfo : SessionInfo.t :=
  {| SessionInfo.address := "192.168.1.20";
     SessionInfo.videoPort := 50000;
     SessionInfo.videoReturnPort := 40000;
     SessionInfo.videoCryptoSuite := 0;
     SessionInfo.videoSRTP := ["k"; "e"; "y"; "s"; "a"; "l"]%byte;
     SessionInfo.videoSSRC := 1;
     SessionInfo.audioPort := 50002;
     SessionInfo.audioReturnPort := 40001;
     SessionInfo.audioCryptoSuite := 0;
     SessionInfo.audioSRTP := ["k"; "e"; "y"; "s"; "a"; "l"]%byte;
     SessionInfo.audioSSRC := 2 |}.

End Sample.


(** * Properties *)

(** ** Running the handlers *)

Example split_fields :
  Js.split "-i  rtsp://cam -frames:v 1" = ["-i"; "rtsp://cam"; "-frames:v"; "1"].
Proof. reflexivity. Qed.

Example split_leading : Js.split " a" = [""; "a"].
Proof. reflexivity. Qed.

Example base64_foobar : Js.base64 ["f"; "o"; "o"; "b"; "a"]%byte = "Zm9vYmE=".
Proof. reflexivity. Qed.

Example pretty_negative : pretty (-1) = "-1".
Proof. reflexivity. Qed.

Example sample_constructed :
  constructor (Sample.camera Sample.videoConfig) None None None
  = inr (Sample.delegate Sample.videoConfig).
Proof. reflexivity. Qed.

Ltac run_handler :=
  unfold handleStreamRequest, stopStream, prepareStream, stop, tryCatch, defined,
    mbind, M_bind, bind, this, emit, update, throw, mret, M_ret, ret;
  cbn [self effects fst snd].

Section Handlers.
Variable stopThrows : FfmpegProcess.t -> option JsError.

(** A start request for an identifier without a pending record throws at
    the first property read of [sessionInfo], before anything is logged,
    launched or stored. *)
Lemma start_not_pending w sessionId video audio :
  This.pendingSessions (self w) !! sessionId = None ->
  handleStreamRequest stopThrows (START sessionId video audio) w
  = (Throw (TypeError "Cannot read property 'address' of undefined"), w).
Proof.
  intros Hnone. run_handler. rewrite Hnone. reflexivity.
Qed.

(** A start request for a pending identifier logs, launches the transcoder,
    stores the handle as ongoing and then deletes the pending record. *)
Lemma start_pending w sessionId video audio sessionInfo :
  This.pendingSessions (self w) !! sessionId = Some sessionInfo ->
  let d := self w in
  let ffmpeg := Start.ffmpeg d video audio sessionInfo sessionId in
  handleStreamRequest stopThrows (START sessionId video audio) w
  = (Normal tt,
     {| self :=
          setPendingSessions
            (setOngoingSessions d (<[sessionId := ffmpeg]> (This.ongoingSessions d)))
            (delete sessionId (This.pendingSessions d));
        effects :=
          effects w
            ++ [LogWith (Start.logLine d video) (if This.debug d then "debug enabled" else "")]
            ++ [Launch ffmpeg] |}).
Proof.
  intros Hsome d ffmpeg. run_handler. rewrite Hsome. cbn.
  rewrite <- app_assoc. reflexivity.
Qed.

(** [stopStream] always returns: the [catch] clause absorbs a throwing
    [stop()]. *)
Lemma stopStream_returns sessionId w :
  fst (stopStream stopThrows sessionId w) = Normal tt.
Proof.
  run_handler.
  destruct (This.ongoingSessions (self w) !! sessionId) as [p|]; cbn;
    [destruct (stopThrows p)|]; reflexivity.
Qed.

(** It never touches the pending dictionary. *)
Lemma stopStream_pending sessionId w :
  This.pendingSessions (self (snd (stopStream stopThrows sessionId w)))
  = This.pendingSessions (self w).
Proof.
  run_handler.
  destruct (This.ongoingSessions (self w) !! sessionId) as [p|]; cbn;
    [destruct (stopThrows p)|]; reflexivity.
Qed.

(** It deletes the ongoing record unless [stop()] threw, in which case the
    [delete] statement is skipped. *)
Lemma stopStream_ongoing sessionId w :
  This.ongoingSessions (self (snd (stopStream stopThrows sessionId w)))
  = match This.ongoingSessions (self w) !! sessionId ≫= stopThrows with
    | Some _ => This.ongoingSessions (self w)
    | None => delete sessionId (This.ongoingSessions (self w))
    end.
Proof.
  run_handler.
  destruct (This.ongoingSessions (self w) !! sessionId) as [p|]; cbn;
    [destruct (stopThrows p)|]; reflexivity.
Qed.

End Handlers.

(** ** Start without a pending record *)

(** C1 (the code departs from the claim).  A start request whose identifier
    has no pending record is not a silent no-op: on the freshly constructed
    sample camera, [START "s1"] throws a [TypeError] at
    [sessionInfo.address].  Nothing is logged, launched or stored before the
    throw, so the world is the one the request found. *)
Theorem C1_start_without_pending_throws :
  let w := Sample.world Sample.videoConfig in
  This.pendingSessions (self w) !! "s1" = None /\
  handleStreamRequest Sample.neverThrows (START "s1" Sample.video Sample.audio) w
  = (Throw (TypeError "Cannot read property 'address' of undefined"), w).
Proof.
  intros w. assert (Hnone : This.pendingSessions (self w) !! "s1" = None)
    by apply lookup_empty.
  split; [exact Hnone|]. apply start_not_pending, Hnone.
Qed.

(** ** Stop *)

(** C2 (as stated, refuted).  [stopStream] does not clear a pending
    record: after a negotiation for "s1" and a stop of "s1", the record is
    still pending. *)
Lemma C2_stop_keeps_pending_record :
  ~ (forall stopThrows w sessionId,
       let w' := snd (stopStream stopThrows sessionId w) in
       This.pendingSessions (self w') !! sessionId = None /\
       This.ongoingSessions (self w') !! sessionId = None).
Proof.
  intros Hclaim.
  destruct (Hclaim Sample.neverThrows
              (run Sample.neverThrows [Prepare Sample.env (Sample.prepare "s1")]
                 (Sample.world Sample.videoConfig))
              "s1") as [Hpending _].
  rewrite stopStream_pending in Hpending.
  vm_compute in Hpending. discriminate Hpending.
Qed.

(** C2 (amended).  [stopStream] never throws and never changes the pending
    dictionary.  When there is no ongoing record for the identifier, or the
    handle's [stop()] returns normally, the identifier is not ongoing
    afterwards; a second call returns as well and changes neither
    dictionary.  Hence the identifier is in neither dictionary afterwards
    exactly when it was not pending before. *)
Theorem C2_stopStream_idempotent stopThrows w sessionId :
  let once := stopStream stopThrows sessionId w in
  let twice := stopStream stopThrows sessionId (snd once) in
  fst once = Normal tt /\
  fst twice = Normal tt /\
  This.pendingSessions (self (snd once)) = This.pendingSessions (self w) /\
  This.pendingSessions (self (snd twice)) = This.pendingSessions (self w) /\
  (This.ongoingSessions (self w) !! sessionId ≫= stopThrows = None ->
   This.ongoingSessions (self (snd once)) !! sessionId = None /\
   This.ongoingSessions (self (snd once)) = delete sessionId (This.ongoingSessions (self w)) /\
   This.ongoingSessions (self (snd twice)) = This.ongoingSessions (self (snd once))).
Proof.
  intros once twice. subst once twice.
  split; [apply stopStream_returns|].
  split; [apply stopStream_returns|].
  split; [apply stopStream_pending|].
  split; [by rewrite !stopStream_pending|].
  intros Hstop.
  assert (Honce : This.ongoingSessions (self (snd (stopStream stopThrows sessionId w)))
                  = delete sessionId (This.ongoingSessions (self w))).
  { rewrite stopStream_ongoing, Hstop. reflexivity. }
  split; [rewrite Honce; apply lookup_delete_eq|].
  split; [exact Honce|].
  rewrite stopStream_ongoing, Honce, lookup_delete_eq. cbn.
  apply delete_id, lookup_delete_eq.
Qed.

Lemma C2_stopStream_idempotent_witness :
  let w := run Sample.neverThrows
             [Prepare Sample.env (Sample.prepare "s1");
              Stream (START "s1" Sample.video Sample.audio)]
             (Sample.world Sample.videoConfig) in
  This.ongoingSessions (self w) !! "s1" ≫= Sample.neverThrows = None /\
  This.ongoingSessions (self (snd (stopStream Sample.neverThrows "s1" w))) !! "s1" = None.
Proof.
  intros w.
  assert (Hstop : This.ongoingSessions (self w) !! "s1" ≫= Sample.neverThrows = None).
  { vm_compute. reflexivity. }
  split; [exact Hstop|].
  exact (proj1 (proj2 (proj2 (proj2 (proj2
           (C2_stopStream_idempotent Sample.neverThrows w "s1")))) Hstop)).
Defined.

(** ** Pending and ongoing sessions *)

Lemma constructor_sessions cameraConfig videoProcessor interfaceName pathToFfmpeg d :
  constructor cameraConfig videoProcessor interfaceName pathToFfmpeg = inr d ->
  This.pendingSessions d = ∅ /\ This.ongoingSessions d = ∅.
Proof.
  unfold constructor.
  destruct (negb (Js.truthyStr _)); [discriminate|].
  intros [= <-]. split; reflexivity.
Qed.

Lemma constructor_disjoint cameraConfig videoProcessor interfaceName pathToFfmpeg d :
  constructor cameraConfig videoProcessor interfaceName pathToFfmpeg = inr d ->
  sessionsDisjoint d.
Proof.
  intros Hd. destruct (constructor_sessions _ _ _ _ _ Hd) as [Hp Ho].
  unfold sessionsDisjoint. rewrite Hp, Ho, !dom_empty_L. set_solver.
Qed.

Lemma handleStreamRequest_disjoint stopThrows request w :
  sessionsDisjoint (self w) ->
  sessionsDisjoint (self (snd (handleStreamRequest stopThrows request w))).
Proof.
  unfold sessionsDisjoint. intros Hdisjoint.
  destruct request as [sessionId video audio|sessionId video|sessionId].
  - destruct (This.pendingSessions (self w) !! sessionId) as [sessionInfo|] eqn:Hp.
    + rewrite (start_pending stopThrows w sessionId video audio sessionInfo Hp). cbn.
      rewrite dom_delete_L, dom_insert_L. set_solver.
    + rewrite (start_not_pending stopThrows w sessionId video audio Hp). exact Hdisjoint.
  - exact Hdisjoint.
  - change (handleStreamRequest stopThrows (STOP sessionId) w)
      with ((stopStream stopThrows sessionId ≫= λ _, emit StreamCallback) w).
    unfold mbind, M_bind, bind.
    pose proof (stopStream_returns stopThrows sessionId w) as Hret.
    pose proof (stopStream_pending stopThrows sessionId w) as Hpending.
    pose proof (stopStream_ongoing stopThrows sessionId w) as Hongoing.
    destruct (stopStream stopThrows sessionId w) as [c w']. cbn in *. subst c. cbn.
    rewrite Hpending, Hongoing.
    destruct (This.ongoingSessions (self w) !! sessionId ≫= stopThrows);
      [exact Hdisjoint|].
    rewrite dom_delete_L. set_solver.
Qed.

Lemma prepareStream_disjoint env request w :
  This.ongoingSessions (self w) !! PrepareStreamRequest.sessionID request = None ->
  sessionsDisjoint (self w) ->
  sessionsDisjoint (self (snd (prepareStream env request w))).
Proof.
  unfold sessionsDisjoint. intros Hfresh Hdisjoint.
  apply not_elem_of_dom in Hfresh.
  run_handler.
  destruct (ipAddress env _ _); cbn.
  - rewrite dom_insert_L. set_solver.
  - destruct (ipAddress env _ _); cbn; [|exact Hdisjoint].
    rewrite dom_insert_L. set_solver.
Qed.

Lemma run_disjoint stopThrows evs w :
  sessionsDisjoint (self w) ->
  freshNegotiations stopThrows evs w ->
  sessionsDisjoint (self (run stopThrows evs w)).
Proof.
  revert w. induction evs as [|ev evs IH]; intros w Hdisjoint Hfresh; [exact Hdisjoint|].
  destruct Hfresh as [Hev Hrest]. cbn [run]. apply IH; [|exact Hrest].
  destruct ev as [env request|request]; cbn [handle].
  - by apply prepareStream_disjoint.
  - by apply handleStreamRequest_disjoint.
Qed.

(** C4 (as stated, refuted).  The two dictionaries are not disjoint at all
    times: [prepareStream] stores a pending record without looking at the
    ongoing ones, so negotiate, start, negotiate for one identifier leaves
    it both pending and ongoing. *)
Lemma C4_prepare_of_ongoing_session :
  ~ (forall cameraConfig videoProcessor interfaceName pathToFfmpeg d stopThrows evs,
       constructor cameraConfig videoProcessor interfaceName pathToFfmpeg = inr d ->
       sessionsDisjoint (self (run stopThrows evs {| self := d; effects := [] |}))).
Proof.
  intros Hclaim.
  specialize (Hclaim (Sample.camera Sample.videoConfig) None None None
                (Sample.delegate Sample.videoConfig) Sample.neverThrows
                [Prepare Sample.env (Sample.prepare "s1");
                 Stream (START "s1" Sample.video Sample.audio);
                 Prepare Sample.env (Sample.prepare "s1")]
                eq_refl).
  apply (Hclaim "s1"); apply elem_of_dom; vm_compute; eauto.
Qed.

(** C4 (amended).  From a world whose dictionaries are disjoint, every
    stream request (start, reconfigure, stop) leaves them disjoint, and so
    does a negotiation for an identifier that is not ongoing; hence they
    are disjoint after every event sequence whose negotiations are fresh.
    A start request that finds a pending record returns normally with the
    identifier ongoing and no longer pending: within the one handler run
    the handle is stored as ongoing and the pending record is deleted right
    after. *)
Theorem C4_sessions_disjoint stopThrows w (Hdisjoint : sessionsDisjoint (self w)) :
  (forall evs,
     freshNegotiations stopThrows evs w ->
     sessionsDisjoint (self (run stopThrows evs w))) /\
  (forall request,
     sessionsDisjoint (self (snd (handleStreamRequest stopThrows request w)))) /\
  (forall env request,
     This.ongoingSessions (self w) !! PrepareStreamRequest.sessionID request = None ->
     sessionsDisjoint (self (snd (prepareStream env request w)))) /\
  (forall sessionId video audio sessionInfo,
     This.pendingSessions (self w) !! sessionId = Some sessionInfo ->
     let result := handleStreamRequest stopThrows (START sessionId video audio) w in
     fst result = Normal tt /\
     This.pendingSessions (self (snd result)) !! sessionId = None /\
     This.ongoingSessions (self (snd result)) !! sessionId
     = Some (Start.ffmpeg (self w) video audio sessionInfo sessionId)).
Proof.
  split; [|split; [|split]].
  - intros evs Hfresh. by apply run_disjoint.
  - intros request. by apply handleStreamRequest_disjoint.
  - intros env request Hfresh. by apply prepareStream_disjoint.
  - intros sessionId video audio sessionInfo Hp result. subst result.
    rewrite (start_pending stopThrows w sessionId video audio sessionInfo Hp). cbn.
    split; [reflexivity|].
    split; [apply lookup_delete_eq | apply lookup_insert_eq].
Qed.

Lemma C4_sessions_disjoint_witness :
  let w := run Sample.neverThrows [Prepare Sample.env (Sample.prepare "s1")]
             (Sample.world Sample.videoConfig) in
  let result := handleStreamRequest Sample.neverThrows
                  (START "s1" Sample.video Sample.audio) w in
  sessionsDisjoint (self w) /\
  fst result = Normal tt /\
  This.pendingSessions (self (snd result)) !! "s1" = None /\
  is_Some (This.ongoingSessions (self (snd result)) !! "s1").
Proof.
  intros w result. subst result.
  assert (Hdisjoint : sessionsDisjoint (self w)).
  { apply (bool_decide_unpack _). vm_compute. exact I. }
  split; [exact Hdisjoint|].
  assert (Hp : is_Some (This.pendingSessions (self w) !! "s1")) by (vm_compute; eauto).
  destruct Hp as [sessionInfo Hp].
  destruct (proj2 (proj2 (proj2 (C4_sessions_disjoint Sample.neverThrows w Hdisjoint)))
              "s1" Sample.video Sample.audio sessionInfo Hp) as (Hret & Hpend & Hong).
  split; [exact Hret|]. split; [exact Hpend|]. rewrite Hong. eauto.
Defined.

(** ** Filters *)

(** The snapshot command lists the flips before the filter. *)
Lemma snapshot_vf d request :
  Snapshot.vf d request
  = if String.eqb (Snapshot.videoFilter d request) "none" then []
    else (if This.hflip d then ["hflip"] else [])
           ++ (if This.vflip d then ["vflip"] else [])
           ++ [Snapshot.videoFilter d request].
Proof.
  unfold Snapshot.vf. destruct (String.eqb _ "none"); reflexivity.
Qed.

(** The stream command lists the filter first and the flips after it. *)
Lemma start_vf d video :
  Start.vf d video
  = if String.eqb (Start.videoFilter d video) "none" || String.eqb (This.vcodec d) "copy"
    then []
    else Start.videoFilter d video
           :: (if This.hflip d then ["hflip"] else [])
           ++ (if This.vflip d then ["vflip"] else []).
Proof.
  unfold Start.vf.
  destruct (String.eqb _ "none"), (String.eqb _ "copy"); reflexivity.
Qed.

(** C3 (the code departs from the claim).  With both flips set and the
    default scale filter, the snapshot command lists the flips before the
    scale filter, as the comment in [handleSnapshotRequest] requires, but
    the stream command lists the scale filter first: its [-vf] argument is
    [scale=1280:720,hflip,vflip]. *)
Theorem C3_stream_lists_filter_before_flips :
  let d := Sample.delegate Sample.videoConfig in
  Snapshot.vf d Sample.snapshot = ["hflip"; "vflip"; "scale=1280:720"] /\
  Start.vf d Sample.video = ["scale=1280:720"; "hflip"; "vflip"] /\
  vfArgs (Start.vf d Sample.video) = " -vf scale=1280:720,hflip,vflip".
Proof. repeat split; reflexivity. Qed.

(** C7 (as stated, refuted).  The snapshot command never looks at the
    codec: with the codec set to copy and a flip configured it still passes
    [-vf] to the transcoder. *)
Lemma C7_snapshot_ignores_codec :
  ~ (forall d request,
       This.vcodec d = "copy" -> "-vf" ∉ Js.split (Snapshot.command d request)).
Proof.
  intros Hclaim.
  apply (Hclaim (Sample.delegate (Sample.withVcodec Sample.videoConfig (Some "copy")))
           Sample.snapshot eq_refl).
  replace (Js.split _)
    with ["-i"; "rtsp://cam/live"; "-frames:v"; "1"; "-vf";
          "hflip,vflip,scale=1280:720"; "-f"; "image2"; "-"]
    by reflexivity.
  set_solver.
Qed.

(** C7 (amended).  In the stream command the copy codec suppresses the
    filter arguments whatever the flips and the filter are: the filter list
    is empty and the video arguments go from the additional command line
    straight to the bit rate.  The snapshot command does not depend on the
    codec. *)
Theorem C7_copy_suppresses_stream_filters d video (Hcopy : This.vcodec d = "copy") :
  Start.vf d video = [] /\
  vfArgs (Start.vf d video) = "" /\
  Start.ffmpegVideoArgs d video
  = " -map " +:+ This.mapvideo d +:+ " -vcodec " +:+ "copy" +:+ " -pix_fmt yuv420p"
      +:+ " -r " +:+ Js.numStr (Start.fps d video) +:+ " -f rawvideo"
      +:+ " " +:+ This.additionalCommandline d
      +:+ " -b:v " +:+ Js.numStr (Start.videoBitrate d video) +:+ "k"
      +:+ " -bufsize " +:+ Js.numStr (Z.mul 2 <$> Start.videoBitrate d video) +:+ "k"
      +:+ " -maxrate " +:+ Js.numStr (Start.videoBitrate d video) +:+ "k"
      +:+ " -payload_type " +:+ pretty (VideoInfo.pt video) /\
  (forall request c, Snapshot.command (setVcodec d c) request = Snapshot.command d request).
Proof.
  assert (Hvf : Start.vf d video = []).
  { rewrite start_vf, Hcopy. cbn. by rewrite orb_true_r. }
  split; [exact Hvf|].
  split; [by rewrite Hvf|].
  split; [|reflexivity].
  unfold Start.ffmpegVideoArgs. rewrite Hvf, Hcopy. reflexivity.
Qed.

Lemma C7_copy_suppresses_stream_filters_witness :
  let d := Sample.delegate (Sample.withVcodec Sample.videoConfig (Some "copy")) in
  This.vcodec d = "copy" /\ This.hflip d = true /\ Start.vf d Sample.video = [].
Proof.
  intros d. split; [reflexivity|]. split; [reflexivity|].
  exact (proj1 (C7_copy_suppresses_stream_filters d Sample.video eq_refl)).
Defined.

(** C9.  When the configured video filter is exactly [none], neither
    command gets a [-vf] argument: both filter lists are empty, flips
    included, and no default scale filter is added. *)
Theorem C9_filter_none d request video (Hnone : This.videoFilter d = Some "none") :
  Snapshot.vf d request = [] /\
  Start.vf d video = [] /\
  vfArgs (Snapshot.vf d request) = "" /\
  vfArgs (Start.vf d video) = "" /\
  Snapshot.command d request
  = Js.str (Snapshot.imageSource d) +:+ " -frames:v 1 -f image2 -".
Proof.
  assert (Hsnap : Snapshot.vf d request = []).
  { rewrite snapshot_vf. unfold Snapshot.videoFilter, effectiveFilter.
    rewrite Hnone. reflexivity. }
  assert (Hstart : Start.vf d video = []).
  { rewrite start_vf. unfold Start.videoFilter, effectiveFilter.
    rewrite Hnone. reflexivity. }
  unfold Snapshot.command. rewrite Hsnap, Hstart. repeat split; reflexivity.
Qed.

Lemma C9_filter_none_witness :
  let d := Sample.delegate (Sample.withVideoFilter Sample.videoConfig (Some "none")) in
  This.videoFilter d = Some "none" /\ This.hflip d = true /\ This.vflip d = true /\
  Snapshot.vf d Sample.snapshot = [] /\ Start.vf d Sample.video = [].
Proof.
  intros d.
  pose proof (C9_filter_none d Sample.snapshot Sample.video eq_refl) as (Hsnap & Hstart & _).
  split; [reflexivity|]. split; [reflexivity|]. split; [reflexivity|].
  split; [exact Hsnap | exact Hstart].
Defined.

(** ** Packet size *)

Lemma append_assoc (a b c : string) : (a +:+ b) +:+ c = a +:+ b +:+ c.
Proof.
  induction a as [|ch a IH]; [reflexivity|].
  change (String ch ((a +:+ b) +:+ c) = String ch (a +:+ b +:+ c)).
  by rewrite IH.
Qed.

Lemma constructor_fields cameraConfig videoProcessor interfaceName pathToFfmpeg d :
  constructor cameraConfig videoProcessor interfaceName pathToFfmpeg = inr d ->
  let config := CameraConfig.videoConfig cameraConfig in
  This.ffmpegOpt d = config /\
  This.packetSize d = Js.orNum (VideoConfig.packetSize config) 1316 /\
  This.maxBitrate d = VideoConfig.maxBitrate config /\
  This.minBitrate d
  = (if Js.truthy (VideoConfig.maxBitrate config)
        && Js.gt (VideoConfig.minBitrate config) (VideoConfig.maxBitrate config)
     then VideoConfig.maxBitrate config
     else VideoConfig.minBitrate config).
Proof.
  unfold constructor.
  destruct (negb (Js.truthyStr _)); [discriminate|].
  intros [= <-]. repeat split; reflexivity.
Qed.

Lemma orNum_nonzero a b : b <> 0 -> Js.orNum a b <> 0.
Proof.
  intros Hb. unfold Js.orNum. destruct a as [n|]; [|exact Hb].
  destruct (n =? 0) eqn:Hn; [exact Hb|]. by apply Z.eqb_neq.
Qed.

(** The [mtu] of a constructed delegate is its packet size: the
    constructor's default makes [this.packetSize] truthy, so the requested
    MTU is never reached. *)
Lemma start_mtu cameraConfig videoProcessor interfaceName pathToFfmpeg d video :
  constructor cameraConfig videoProcessor interfaceName pathToFfmpeg = inr d ->
  Start.mtu d video
  = Js.orNum (VideoConfig.packetSize (CameraConfig.videoConfig cameraConfig)) 1316.
Proof.
  intros Hd. destruct (constructor_fields _ _ _ _ _ Hd) as (_ & Hps & _).
  unfold Start.mtu. rewrite Hps. unfold Js.orNum at 1.
  destruct (Js.orNum _ 1316 =? 0) eqn:Hz; [|reflexivity].
  apply Z.eqb_eq in Hz. by apply orNum_nonzero in Hz.
Qed.

(** The [pkt_size] parameter that ends the video target of a constructed
    delegate is the configured packet size when that is a non-zero number
    and 1316 otherwise. *)
Lemma video_target_pkt_size cameraConfig videoProcessor interfaceName pathToFfmpeg
    d video sessionInfo :
  constructor cameraConfig videoProcessor interfaceName pathToFfmpeg = inr d ->
  let configured := VideoConfig.packetSize (CameraConfig.videoConfig cameraConfig) in
  (exists target,
     Start.ffmpegVideoStream d video sessionInfo
     = target +:+ "&pkt_size=" +:+ pretty (Js.orNum configured 1316)) /\
  (forall n, configured = Some n -> n <> 0 -> Start.mtu d video = n) /\
  (configured = None -> Start.mtu d video = 1316).
Proof.
  intros Hd configured. pose proof (start_mtu _ _ _ _ _ video Hd) as Hmtu.
  fold configured in Hmtu.
  split; [|split].
  - exists (" -ssrc " +:+ pretty (SessionInfo.videoSSRC sessionInfo)
            +:+ " -f rtp" +:+ " -srtp_out_suite AES_CM_128_HMAC_SHA1_80"
            +:+ " -srtp_out_params " +:+ Js.base64 (SessionInfo.videoSRTP sessionInfo)
            +:+ " srtp://" +:+ SessionInfo.address sessionInfo +:+ ":"
            +:+ pretty (SessionInfo.videoPort sessionInfo)
            +:+ "?rtcpport=" +:+ pretty (SessionInfo.videoPort sessionInfo)
            +:+ "&localrtcpport=" +:+ pretty (SessionInfo.videoPort sessionInfo)).
    unfold Start.ffmpegVideoStream. rewrite Hmtu, !append_assoc. reflexivity.
  - intros n Hn Hnz. rewrite Hmtu, Hn. cbn.
    apply Z.eqb_neq in Hnz. by rewrite Hnz.
  - intros Hnone. rewrite Hmtu, Hnone. reflexivity.
Qed.

(** C5 (the code departs from the claim).  The sample camera configures no
    packet size and the start request asks for an MTU of 1378, yet the
    video target of the launched command ends in [pkt_size=1316]: the
    constructor has already replaced the missing packet size by 1316, so
    the fallback to the requested MTU in [this.packetSize || video.mtu] is
    never reached. *)
Theorem C5_requested_mtu_not_emitted :
  let w := snd (prepareStream Sample.env (Sample.prepare "s1")
                  (Sample.world Sample.videoConfig)) in
  let result := handleStreamRequest Sample.neverThrows
                  (START "s1" Sample.video Sample.audio) w in
  VideoConfig.packetSize (This.ffmpegOpt (self w)) = None /\
  VideoInfo.mtu Sample.video = 1378 /\
  Start.mtu (self w) Sample.video = 1316 /\
  exists ffmpeg,
    last (effects (snd result)) = Some (Launch ffmpeg) /\
    FfmpegProcess.command ffmpeg
    = "-i rtsp://cam/live -map 0:0 -vcodec libx264 -pix_fmt yuv420p -r 30 -f rawvideo"
        +:+ " -preset ultrafast -tune zerolatency -vf scale=1280:720,hflip,vflip"
        +:+ " -b:v 299k -bufsize 598k -maxrate 299k -payload_type 99"
        +:+ " -ssrc 1 -f rtp -srtp_out_suite AES_CM_128_HMAC_SHA1_80"
        +:+ " -srtp_out_params a2V5c2Fs srtp://192.168.1.20:50000"
        +:+ "?rtcpport=50000&localrtcpport=50000&pkt_size=1316".
Proof.
  intros w result.
  split; [reflexivity|]. split; [reflexivity|]. split; [reflexivity|].
  eexists. split; reflexivity.
Qed.

(** ** Clamping *)

(** The values the start handler computes for a constructed delegate: a requested width above the
    configured [maxWidth] yields [maxWidth]; a requested video bit rate
    above the configured (non-zero) [maxBitrate] yields [maxBitrate]; one
    below the delegate's (non-zero) [minBitrate] yields that [minBitrate],
    and so does one below the configured [minBitrate]; and a configured [minBitrate] above the configured (non-zero)
    [maxBitrate] makes the delegate's [minBitrate] equal to [maxBitrate]. *)
Lemma clamped_values cameraConfig videoProcessor interfaceName pathToFfmpeg d video
    (Hd : constructor cameraConfig videoProcessor interfaceName pathToFfmpeg = inr d) :
  let config := CameraConfig.videoConfig cameraConfig in
  (forall W, VideoConfig.maxWidth config = Some W ->
     W < VideoInfo.width video -> Start.width d video = Some W) /\
  (forall M, VideoConfig.maxBitrate config = Some M -> M <> 0 ->
     M < VideoInfo.max_bit_rate video -> Start.videoBitrate d video = Some M) /\
  (forall m, This.minBitrate d = Some m -> m <> 0 ->
     VideoInfo.max_bit_rate video < m -> Start.videoBitrate d video = Some m) /\
  (forall m, VideoConfig.minBitrate config = Some m -> m <> 0 ->
     VideoInfo.max_bit_rate video < m -> Start.videoBitrate d video = This.minBitrate d) /\
  (forall M m, VideoConfig.maxBitrate config = Some M -> M <> 0 ->
     VideoConfig.minBitrate config = Some m -> M < m ->
     This.minBitrate d = Some M /\ This.minBitrate d = This.maxBitrate d).
Proof.
  intros config.
  destruct (constructor_fields _ _ _ _ _ Hd) as (Hopt & _ & Hmax & Hmin).
  fold config in Hopt, Hmax, Hmin.
  assert (Hfloor : forall m, This.minBitrate d = Some m -> m <> 0 ->
            VideoInfo.max_bit_rate video < m -> Start.videoBitrate d video = Some m).
  { intros m Hm Hnz Hlt. unfold Start.videoBitrate. rewrite Hm.
    assert (Hfirst : Js.truthy (This.maxBitrate d)
                     && Js.gt (Some (VideoInfo.max_bit_rate video)) (This.maxBitrate d)
                     = false).
    { rewrite Hm in Hmin. rewrite Hmax.
      destruct (VideoConfig.maxBitrate config) as [M|]; [|reflexivity].
      cbn in Hmin |- *.
      destruct (negb (M =? 0)) eqn:HMnz; [|reflexivity]. cbn in Hmin |- *.
      apply Z.ltb_ge.
      destruct (VideoConfig.minBitrate config) as [m0|]; cbn in Hmin.
      - destruct (M <? m0) eqn:HMm; injection Hmin as Hmin.
        + lia.
        + apply Z.ltb_ge in HMm. lia.
      - discriminate Hmin. }
    rewrite Hfirst. cbn.
    apply Z.eqb_neq in Hnz. apply Z.ltb_lt in Hlt. by rewrite Hnz, Hlt. }
  split; [|split; [|split; [exact Hfloor|split]]].
  - intros W HW Hlt. unfold Start.width. rewrite Hopt, HW. cbn.
    apply Z.ltb_lt in Hlt. by rewrite Hlt.
  - intros M HM Hnz Hlt. unfold Start.videoBitrate. rewrite Hmax, HM. cbn.
    apply Z.eqb_neq in Hnz. apply Z.ltb_lt in Hlt. by rewrite Hnz, Hlt.
  - intros m Hm Hnz Hlt. rewrite Hmin, Hm.
    destruct (VideoConfig.maxBitrate config) as [M|] eqn:HM; cbn.
    + destruct (negb (M =? 0)) eqn:HMnz; cbn.
      * destruct (M <? m) eqn:HMm.
        -- (* the floor was lowered to the ceiling [M] *)
           unfold Start.videoBitrate. rewrite Hmax, Hmin, Hm. cbn.
           rewrite HMnz, HMm. cbn. rewrite HMnz. cbn.
           destruct (M <? VideoInfo.max_bit_rate video) eqn:H1; [reflexivity|].
           destruct (VideoInfo.max_bit_rate video <? M) eqn:H2; [reflexivity|].
           apply Z.ltb_ge in H1, H2. f_equal. lia.
        -- apply Hfloor; [|exact Hnz|exact Hlt].
           rewrite Hmin, Hm. cbn. by rewrite HMnz, HMm.
      * apply Hfloor; [|exact Hnz|exact Hlt].
        rewrite Hmin, Hm. cbn. by rewrite HMnz.
    + apply Hfloor; [|exact Hnz|exact Hlt]. by rewrite Hmin, Hm.
  - intros M m HM Hnz Hm Hlt. rewrite Hmin, Hmax, HM, Hm. cbn.
    apply Z.eqb_neq in Hnz. apply Z.ltb_lt in Hlt. by rewrite Hnz, Hlt.
Qed.

Example clamped_values_sample :
  let config := Sample.withBitrates Sample.videoConfig (Some 500) (Some 300) in
  let d := Sample.delegate config in
  constructor (Sample.camera config) None None None = inr d /\
  Start.width d Sample.video = Some 1280 /\
  This.minBitrate d = Some 300 /\
  Start.videoBitrate d Sample.video = Some 300.
Proof.
  intros config d.
  pose proof (clamped_values (Sample.camera config) None None None d Sample.video eq_refl)
    as (Hwidth & _ & Hfloor & _ & Hmin).
  split; [reflexivity|].
  split; [apply (Hwidth 1280); reflexivity|].
  split; [apply (Hmin 300 500); [reflexivity | lia | reflexivity | reflexivity]|].
  apply (Hfloor 300); [reflexivity | lia | reflexivity].
Qed.

(** *** What the command carries *)

Lemma substring_middle before x after :
  String.substring (String.length before) (String.length x) (before +:+ x +:+ after) = x.
Proof.
  induction before as [|c before IH]; [|exact IH].
  change (String.substring 0 (String.length x) (x +:+ after) = x).
  induction x as [|c x IH]; [by destruct after|].
  change (String c (String.substring 0 (String.length x) (x +:+ after)) = String c x).
  by rewrite IH.
Qed.

(** A string that contains a non-empty fragment has an index for it. *)
Lemma contains_index s before x after :
  x <> "" -> s = before +:+ x +:+ after -> String.index 0 x s <> None.
Proof.
  intros Hx -> Hnone.
  apply (String.index_correct3 0 (String.length before) x _ Hnone Hx); [lia|].
  apply substring_middle.
Qed.

(** The command does not depend on the session dictionaries. *)
Lemma fcmd_sessions d pending ongoing video audio sessionInfo :
  Start.fcmd (setPendingSessions (setOngoingSessions d ongoing) pending) video audio sessionInfo
  = Start.fcmd d video audio sessionInfo.
Proof. reflexivity. Qed.

(** The bit rate arguments of the command. *)
Lemma fcmd_bitrate d video audio sessionInfo b :
  Start.videoBitrate d video = Some b ->
  exists before after,
    Start.fcmd d video audio sessionInfo
    = before +:+ " -b:v " +:+ pretty b +:+ "k" +:+ " -bufsize " +:+ pretty (2 * b) +:+ "k"
        +:+ " -maxrate " +:+ pretty b +:+ "k" +:+ after.
Proof.
  intros Hb.
  exists (Js.str (VideoConfig.source (This.ffmpegOpt d))
          +:+ " -map " +:+ This.mapvideo d +:+ " -vcodec " +:+ This.vcodec d
          +:+ " -pix_fmt yuv420p" +:+ " -r " +:+ Js.numStr (Start.fps d video)
          +:+ " -f rawvideo" +:+ " " +:+ This.additionalCommandline d
          +:+ vfArgs (Start.vf d video)).
  eexists.
  unfold Start.fcmd, Start.ffmpegVideoArgs. rewrite Hb. cbn [Js.numStr fmap option_fmap option_map].
  rewrite !append_assoc. reflexivity.
Qed.

(** The filter argument of the command when the default scale filter is in
    use and the height is not the locked dimension. *)
Lemma fcmd_scale_width d video audio sessionInfo W :
  Start.width d video = Some W ->
  This.videoFilter d = None ->
  This.vcodec d <> "copy" ->
  VideoConfig.preserveRatio (This.ffmpegOpt d) <> Some "H" ->
  exists before after,
    Start.fcmd d video audio sessionInfo
    = before +:+ " -vf " +:+ "scale=" +:+ pretty W +:+ ":" +:+ after.
Proof.
  intros HW Hfilter Hcodec Hratio.
  assert (Hres : exists rest, Start.resolution d video = pretty W +:+ ":" +:+ rest).
  { unfold Start.resolution, resolution. rewrite HW. cbn [Js.numStr].
    destruct (VideoConfig.preserveRatio (This.ffmpegOpt d)) as [r|]; [|eauto].
    destruct (String.eqb r "W") eqn:HrW; [by exists "-1"|].
    destruct (String.eqb r "H") eqn:HrH; [|eauto].
    apply String.eqb_eq in HrH. by subst r. }
  destruct Hres as [rest Hres].
  assert (Hvf : exists tail,
            vfArgs (Start.vf d video) = " -vf " +:+ "scale=" +:+ pretty W +:+ ":" +:+ tail).
  { rewrite start_vf. unfold Start.videoFilter, effectiveFilter. rewrite Hfilter, Hres.
    apply String.eqb_neq in Hcodec. rewrite Hcodec, orb_false_r.
    assert (String.eqb ("scale=" +:+ pretty W +:+ ":" +:+ rest) "none" = false) as ->
      by reflexivity.
    destruct (This.hflip d), (This.vflip d); cbn [app vfArgs length Nat.ltb Nat.leb Js.join];
      eexists; rewrite ?append_assoc; reflexivity. }
  destruct Hvf as [tail Hvf].
  exists (Js.str (VideoConfig.source (This.ffmpegOpt d))
          +:+ " -map " +:+ This.mapvideo d +:+ " -vcodec " +:+ This.vcodec d
          +:+ " -pix_fmt yuv420p" +:+ " -r " +:+ Js.numStr (Start.fps d video)
          +:+ " -f rawvideo" +:+ " " +:+ This.additionalCommandline d).
  eexists. unfold Start.fcmd, Start.ffmpegVideoArgs. rewrite Hvf, !append_assoc. reflexivity.
Qed.

(** C6 (as stated, refuted).  The clamped width is not always emitted: with
    a custom video filter the command of a 1920-wide request on a camera
    limited to 1280 does not mention 1280 at all.  A ceiling of zero counts
    as no ceiling: a request of 299 kbps is emitted unchanged, and a floor
    of 100 above it is left at 100. *)
Lemma C6_clamped_values_not_always_emitted :
  ~ (forall cameraConfig videoProcessor interfaceName pathToFfmpeg d video audio sessionInfo W,
       constructor cameraConfig videoProcessor interfaceName pathToFfmpeg = inr d ->
       VideoConfig.maxWidth (CameraConfig.videoConfig cameraConfig) = Some W ->
       W < VideoInfo.width video ->
       exists before after,
         Start.fcmd d video audio sessionInfo = before +:+ pretty W +:+ after) /\
  ~ (forall cameraConfig videoProcessor interfaceName pathToFfmpeg d video audio sessionInfo M,
       constructor cameraConfig videoProcessor interfaceName pathToFfmpeg = inr d ->
       VideoConfig.maxBitrate (CameraConfig.videoConfig cameraConfig) = Some M ->
       M < VideoInfo.max_bit_rate video ->
       exists before after,
         Start.fcmd d video audio sessionInfo
         = before +:+ (" -b:v " +:+ pretty M +:+ "k") +:+ after) /\
  ~ (forall cameraConfig videoProcessor interfaceName pathToFfmpeg d M m,
       constructor cameraConfig videoProcessor interfaceName pathToFfmpeg = inr d ->
       VideoConfig.maxBitrate (CameraConfig.videoConfig cameraConfig) = Some M ->
       VideoConfig.minBitrate (CameraConfig.videoConfig cameraConfig) = Some m ->
       M < m ->
       This.minBitrate d = Some M).
Proof.
  split; [|split]; intros Hclaim.
  - destruct (Hclaim
                (Sample.camera (Sample.withVideoFilter Sample.videoConfig (Some "fps=10")))
                None None None _ Sample.video Sample.audio Sample.sessionInfo 1280
                eq_refl eq_refl eq_refl) as (before & after & Hcmd).
    apply (contains_index _ before "1280" after) in Hcmd; [|discriminate].
    apply Hcmd. reflexivity.
  - destruct (Hclaim
                (Sample.camera (Sample.withBitrates Sample.videoConfig (Some 100) (Some 0)))
                None None None _ Sample.video Sample.audio Sample.sessionInfo 0
                eq_refl eq_refl eq_refl) as (before & after & Hcmd).
    apply (contains_index _ before " -b:v 0k" after) in Hcmd; [|discriminate].
    apply Hcmd. reflexivity.
  - specialize (Hclaim
                  (Sample.camera (Sample.withBitrates Sample.videoConfig (Some 100) (Some 0)))
                  None None None _ 0 100 eq_refl eq_refl eq_refl eq_refl).
    discriminate Hclaim.
Qed.

(** C6 (amended).  In the command a start request launches on a constructed
    delegate: a requested width above the configured [maxWidth] is emitted
    as [maxWidth] in the [-vf scale=] argument, provided the default scale
    filter is in use (no custom filter, codec not copy) and the height is
    not the locked dimension; a requested video bit rate above a non-zero
    [maxBitrate] is emitted as [maxBitrate] (buffer size twice that), and
    one below the delegate's non-zero [minBitrate] as that [minBitrate];
    and a configured [minBitrate] above a non-zero [maxBitrate] makes the
    delegate's [minBitrate] equal to [maxBitrate]. *)
Theorem C6_clamped_values_emitted cameraConfig videoProcessor interfaceName pathToFfmpeg d
    stopThrows pending ongoing log sessionId video audio sessionInfo
    (Hd : constructor cameraConfig videoProcessor interfaceName pathToFfmpeg = inr d)
    (Hpending : pending !! sessionId = Some sessionInfo) :
  let config := CameraConfig.videoConfig cameraConfig in
  let w := {| self := setPendingSessions (setOngoingSessions d ongoing) pending;
              effects := log |} in
  let result := handleStreamRequest stopThrows (START sessionId video audio) w in
  exists ffmpeg,
    last (effects (snd result)) = Some (Launch ffmpeg) /\
    (forall W,
       VideoConfig.maxWidth config = Some W -> W < VideoInfo.width video ->
       This.videoFilter d = None -> This.vcodec d <> "copy" ->
       VideoConfig.preserveRatio config <> Some "H" ->
       exists before after,
         FfmpegProcess.command ffmpeg
         = before +:+ " -vf " +:+ "scale=" +:+ pretty W +:+ ":" +:+ after) /\
    (forall M,
       VideoConfig.maxBitrate config = Some M -> M <> 0 ->
       M < VideoInfo.max_bit_rate video ->
       exists before after,
         FfmpegProcess.command ffmpeg
         = before +:+ " -b:v " +:+ pretty M +:+ "k" +:+ " -bufsize " +:+ pretty (2 * M)
             +:+ "k" +:+ " -maxrate " +:+ pretty M +:+ "k" +:+ after) /\
    (forall m,
       This.minBitrate d = Some m -> m <> 0 ->
       VideoInfo.max_bit_rate video < m ->
       exists before after,
         FfmpegProcess.command ffmpeg
         = before +:+ " -b:v " +:+ pretty m +:+ "k" +:+ " -bufsize " +:+ pretty (2 * m)
             +:+ "k" +:+ " -maxrate " +:+ pretty m +:+ "k" +:+ after) /\
    (forall M m,
       VideoConfig.maxBitrate config = Some M -> M <> 0 ->
       VideoConfig.minBitrate config = Some m -> M < m ->
       This.minBitrate d = Some M).
Proof.
  intros config w result. subst result.
  rewrite (start_pending stopThrows w sessionId video audio sessionInfo Hpending).
  cbn [snd effects self w].
  eexists. split; [by rewrite app_assoc, last_snoc|].
  cbn [FfmpegProcess.command Start.ffmpeg]. rewrite fcmd_sessions.
  destruct (clamped_values _ _ _ _ _ video Hd) as (Hwidth & Hmax & Hfloor & _ & Hmin).
  destruct (constructor_fields _ _ _ _ _ Hd) as (Hopt & _).
  fold config in Hwidth, Hmax, Hmin, Hopt.
  split; [|split; [|split]].
  - intros W HW Hlt Hfilter Hcodec Hratio.
    apply fcmd_scale_width; [by apply Hwidth | exact Hfilter | exact Hcodec |].
    by rewrite Hopt.
  - intros M HM Hnz Hlt. apply fcmd_bitrate. by apply Hmax.
  - intros m Hm Hnz Hlt. apply fcmd_bitrate. by apply Hfloor.
  - intros M m HM Hnz Hm Hlt. by destruct (Hmin M m HM Hnz Hm Hlt).
Qed.

Lemma C6_clamped_values_emitted_witness :
  let config := Sample.withBitrates Sample.videoConfig (Some 500) (Some 300) in
  let d := Sample.delegate config in
  let w := {| self := setPendingSessions (setOngoingSessions d ∅)
                        (<["s1" := Sample.sessionInfo]> ∅);
              effects := [] |} in
  let result := handleStreamRequest Sample.neverThrows
                  (START "s1" Sample.video Sample.audio) w in
  constructor (Sample.camera config) None None None = inr d /\
  (<["s1" := Sample.sessionInfo]> ∅ : gmap string SessionInfo.t) !! "s1"
  = Some Sample.sessionInfo /\
  This.minBitrate d = Some 300 /\
  exists ffmpeg before after,
    last (effects (snd result)) = Some (Launch ffmpeg) /\
    FfmpegProcess.command ffmpeg
    = before +:+ " -vf " +:+ "scale=" +:+ pretty 1280 +:+ ":" +:+ after.
Proof.
  intros config d w result.
  assert (Hpending : (<["s1" := Sample.sessionInfo]> ∅ : gmap string SessionInfo.t) !! "s1"
                     = Some Sample.sessionInfo) by apply lookup_insert_eq.
  destruct (C6_clamped_values_emitted (Sample.camera config) None None None d
              Sample.neverThrows (<["s1" := Sample.sessionInfo]> ∅) ∅ []
              "s1" Sample.video Sample.audio Sample.sessionInfo eq_refl Hpending)
    as (ffmpeg & Hlast & Hwidth & _ & _ & Hmin).
  split; [reflexivity|]. split; [exact Hpending|].
  split; [apply (Hmin 300 500); [reflexivity | lia | reflexivity | reflexivity]|].
  destruct (Hwidth 1280) as (before & after & Hcmd);
    [reflexivity | reflexivity | reflexivity | discriminate | discriminate|].
  exists ffmpeg, before, after. by split.
Defined.

(** ** Audio bit rate *)



(** On the sample camera (floor 100, ceiling 300) a request of 24 kbps for
    audio stays at 24, while the same request for video is raised to 100. *)
Example audio_floor_not_applied :
  let d := Sample.delegate Sample.videoConfig in
  let low := {| VideoInfo.width := 640; VideoInfo.height := 360; VideoInfo.fps := 30;
                VideoInfo.pt := 99; VideoInfo.max_bit_rate := 24; VideoInfo.mtu := 1378 |} in
  Start.audioBitrate d Sample.audio = Some 24 /\
  Start.videoBitrate d low = Some 100.
Proof. split; reflexivity. Qed.

(** ** Snapshot failures *)

(** A synchronous throw of [spawn] reaches the caller as an error. *)
Lemma snapshot_spawn_throws d request err :
  Snapshot.handleSnapshotRequest d request (SpawnThrows err)
  = [LogErrorJs err; SnapshotCallback (inl err)].
Proof. reflexivity. Qed.

(** Once [spawn] has returned a child, no event makes the handlers call
    back with an error. *)
Lemma onEvents_no_error_callback d events imageBuffer err :
  SnapshotCallback (inl err) ∉ Snapshot.onEvents d imageBuffer events.
Proof.
  revert imageBuffer.
  induction events as [|ev events IH]; intros imageBuffer; cbn.
  - apply not_elem_of_nil.
  - destruct ev as [data|error|].
    + apply IH.
    + rewrite not_elem_of_cons. split; [discriminate|].
      rewrite not_elem_of_app. split; [|apply IH].
      destruct (This.debug d); [|apply not_elem_of_nil].
      rewrite not_elem_of_cons. split; [discriminate | apply not_elem_of_nil].
    + rewrite not_elem_of_cons. split; [discriminate | apply IH].
Qed.

Lemma snapshot_spawned_no_error_callback d request events err :
  SnapshotCallback (inl err)
    ∉ Snapshot.handleSnapshotRequest d request (Spawned events).
Proof.
  unfold Snapshot.handleSnapshotRequest.
  rewrite !not_elem_of_app. split; [|split].
  - rewrite !not_elem_of_cons. repeat split; try discriminate. apply not_elem_of_nil.
  - destruct (This.debug d); [|apply not_elem_of_nil].
    rewrite not_elem_of_cons. split; [discriminate | apply not_elem_of_nil].
  - apply onEvents_no_error_callback.
Qed.

(** C8 (the code departs from the claim).  A transcoder that cannot be
    launched announces it through the child's ['error'] event, followed by
    ['close'].  The ['error'] handler only logs, and the ['close'] handler
    then calls back with no error and the empty image buffer: the caller of
    the snapshot receives a success with zero bytes. *)
Theorem C8_launch_failure_reported_as_success :
  Snapshot.handleSnapshotRequest (Sample.delegate Sample.videoConfig) Sample.snapshot
    (Spawned [ChildError (SystemError "ENOENT"); Close])
  = [SpawnSnapshot "ffmpeg"
       ["-i"; "rtsp://cam/live"; "-frames:v"; "1"; "-vf";
        "hflip,vflip,scale=1280:720"; "-f"; "image2"; "-"];
     Log "Snapshot from Porch at 1280:720";
     Log "An error occurred while making snapshot request";
     SnapshotCallback (inr [])].
Proof. reflexivity. Qed.

(** * Further properties of the delegate *)

(** ** Construction *)

Lemma orStr_nonempty a b : b <> "" -> Js.orStr a b <> "".
Proof.
  intros Hb. unfold Js.orStr. destruct a as [s|]; [|exact Hb].
  destruct (String.eqb s "") eqn:Hs; [exact Hb|]. by apply String.eqb_neq.
Qed.

(** With a [videoConfig], the constructor throws its own error exactly
    when the source is missing or empty. *)
Lemma constructor_source cameraConfig videoProcessor interfaceName pathToFfmpeg :
  let source := VideoConfig.source (CameraConfig.videoConfig cameraConfig) in
  (source = None \/ source = Some ""
   <-> constructor cameraConfig videoProcessor interfaceName pathToFfmpeg
       = inl (Error "Missing source for camera.")) /\
  ((exists s, source = Some s /\ s <> "")
   <-> exists d, constructor cameraConfig videoProcessor interfaceName pathToFfmpeg = inr d).
Proof.
  intros source. unfold constructor. fold source.
  destruct source as [s|]; cbn.
  - destruct (String.eqb s "") eqn:Hs; cbn.
    + apply String.eqb_eq in Hs. subst s. split; split.
      * reflexivity.
      * intros _. by right.
      * intros (s & [= <-] & Hne). contradiction.
      * intros (d & [=]).
    + apply String.eqb_neq in Hs. split; split.
      * intros [[=]|[= ->]]. contradiction.
      * intros [=].
      * intros _. eauto.
      * intros _. exists s. by split.
  - split; split.
    + reflexivity.
    + intros _. by left.
    + intros (s & [=] & _).
    + intros (d & [=]).
Qed.

(** X1.  The constructor fails in two ways: with a [TypeError] when the
    camera configuration has no [videoConfig], and with "Missing source
    for camera." when it has one whose source is missing or empty.  With a
    non-empty source it returns a delegate. *)
Theorem X1_constructor_failures cameraConfig videoProcessor interfaceName pathToFfmpeg :
  let result := newStreamingDelegate cameraConfig videoProcessor interfaceName pathToFfmpeg in
  (CameraConfigInput.videoConfig cameraConfig = None
   <-> result = inl (TypeError "Cannot read property 'audio' of undefined")) /\
  ((exists videoConfig,
      CameraConfigInput.videoConfig cameraConfig = Some videoConfig /\
      (VideoConfig.source videoConfig = None \/ VideoConfig.source videoConfig = Some ""))
   <-> result = inl (Error "Missing source for camera.")) /\
  ((exists videoConfig s,
      CameraConfigInput.videoConfig cameraConfig = Some videoConfig /\
      VideoConfig.source videoConfig = Some s /\ s <> "")
   <-> exists d, result = inr d).
Proof.
  intros result. subst result. unfold newStreamingDelegate.
  destruct (CameraConfigInput.videoConfig cameraConfig) as [videoConfig|].
  - destruct (constructor_source
                {| CameraConfig.name := CameraConfigInput.name cameraConfig;
                   CameraConfig.videoConfig := videoConfig |}
                videoProcessor interfaceName pathToFfmpeg) as [Hthrows Hreturns].
    cbn in Hthrows, Hreturns.
    split; [|split].
    + split; [discriminate|]. intros Heq. exfalso. revert Heq. unfold constructor.
      destruct (negb _); discriminate.
    + rewrite <- Hthrows. split.
      * by intros (vc & [= <-] & Hsource).
      * intros Hsource. by exists videoConfig.
    + rewrite <- Hreturns. split.
      * intros (vc & s & [= <-] & Hs). by exists s.
      * intros (s & Hs). by exists videoConfig, s.
  - split; [|split].
    + by split.
    + split; [intros (vc & [=] & _) | discriminate].
    + split; [intros (vc & s & [=] & _) | intros (d & [=])].
Qed.

(** X2.  Every delegate the constructor returns has its optional settings
    resolved: the processor, codec, stream maps, additional command line
    and interface name are non-empty, the packet size is not zero, the
    video filter is [null] or a non-empty string, and no session is pending
    or ongoing. *)
Theorem X2_constructor_resolves_defaults cameraConfig videoProcessor interfaceName pathToFfmpeg d
    (Hd : constructor cameraConfig videoProcessor interfaceName pathToFfmpeg = inr d) :
  This.videoProcessor d <> "" /\
  This.vcodec d <> "" /\
  This.mapvideo d <> "" /\
  This.mapaudio d <> "" /\
  This.additionalCommandline d <> "" /\
  This.interfaceName d <> "" /\
  This.packetSize d <> 0 /\
  This.videoFilter d <> Some "" /\
  This.pendingSessions d = ∅ /\
  This.ongoingSessions d = ∅.
Proof.
  revert Hd. unfold constructor.
  destruct (negb (Js.truthyStr _)); [discriminate|].
  intros [= <-]. cbn.
  repeat split; try (apply orStr_nonempty; discriminate).
  - apply orNum_nonzero. discriminate.
  - unfold Js.orOpt, Js.truthyStr.
    destruct (VideoConfig.videoFilter _) as [f|]; [|discriminate].
    destruct (String.eqb f "") eqn:Hf; cbn; [discriminate|].
    apply String.eqb_neq in Hf. congruence.
Qed.

Lemma X2_constructor_resolves_defaults_witness :
  constructor (Sample.camera Sample.videoConfig) None None None
  = inr (Sample.delegate Sample.videoConfig) /\
  This.vcodec (Sample.delegate Sample.videoConfig) <> "".
Proof.
  split; [reflexivity|].
  exact (proj1 (proj2 (X2_constructor_resolves_defaults
                         (Sample.camera Sample.videoConfig) None None None
                         (Sample.delegate Sample.videoConfig) eq_refl))).
Defined.

(** ** Bit rates *)

(** After construction a floor never lies above a non-zero ceiling. *)
Lemma constructor_floor_le_ceiling cameraConfig videoProcessor interfaceName pathToFfmpeg d M m :
  constructor cameraConfig videoProcessor interfaceName pathToFfmpeg = inr d ->
  This.maxBitrate d = Some M -> M <> 0 -> This.minBitrate d = Some m -> m <= M.
Proof.
  intros Hd HM Hnz Hm.
  destruct (constructor_fields _ _ _ _ _ Hd) as (_ & _ & Hmax & Hmin).
  cbn zeta in Hmax, Hmin. rewrite <- Hmax, HM, Hm in Hmin. cbn in Hmin.
  apply Z.eqb_neq in Hnz. rewrite Hnz in Hmin. cbn in Hmin.
  destruct (VideoConfig.minBitrate _) as [m0|]; cbn in Hmin.
  - destruct (M <? m0) eqn:Hlt; injection Hmin as ->; [lia|].
    by apply Z.ltb_ge in Hlt.
  - discriminate Hmin.
Qed.

(** X3.  On a constructed delegate with a non-zero ceiling and a non-zero
    floor, the video bit rate of every start request lies between the floor
    and the ceiling, and a request already between them is passed
    unchanged. *)
Theorem X3_video_bitrate_within_bounds cameraConfig videoProcessor interfaceName pathToFfmpeg
    d video M m
    (Hd : constructor cameraConfig videoProcessor interfaceName pathToFfmpeg = inr d)
    (HM : This.maxBitrate d = Some M) (HMnz : M <> 0)
    (Hm : This.minBitrate d = Some m) (Hmnz : m <> 0) :
  m <= M /\
  (exists b, Start.videoBitrate d video = Some b /\ m <= b <= M) /\
  (m <= VideoInfo.max_bit_rate video <= M ->
   Start.videoBitrate d video = Some (VideoInfo.max_bit_rate video)).
Proof.
  pose proof (constructor_floor_le_ceiling _ _ _ _ _ _ _ Hd HM HMnz Hm) as Hle.
  split; [exact Hle|].
  unfold Start.videoBitrate. rewrite HM, Hm. cbn.
  apply Z.eqb_neq in HMnz, Hmnz. rewrite HMnz, Hmnz. cbn.
  destruct (M <? VideoInfo.max_bit_rate video) eqn:H1.
  - apply Z.ltb_lt in H1. split; [|lia]. exists M. split; [reflexivity | lia].
  - apply Z.ltb_ge in H1.
    destruct (VideoInfo.max_bit_rate video <? m) eqn:H2.
    + apply Z.ltb_lt in H2. split; [|lia]. exists m. split; [reflexivity | lia].
    + apply Z.ltb_ge in H2. split; [|reflexivity].
      exists (VideoInfo.max_bit_rate video). split; [reflexivity | lia].
Qed.

Lemma X3_video_bitrate_within_bounds_witness :
  let d := Sample.delegate Sample.videoConfig in
  constructor (Sample.camera Sample.videoConfig) None None None = inr d /\
  This.maxBitrate d = Some 300 /\ 300 <> 0 /\
  This.minBitrate d = Some 100 /\ 100 <> 0 /\
  Start.videoBitrate d Sample.video = Some (VideoInfo.max_bit_rate Sample.video).
Proof.
  intros d.
  assert (H300 : 300 <> 0) by lia. assert (H100 : 100 <> 0) by lia.
  split; [reflexivity|]. split; [reflexivity|]. split; [exact H300|].
  split; [reflexivity|]. split; [exact H100|].
  apply (X3_video_bitrate_within_bounds (Sample.camera Sample.videoConfig) None None None
           d Sample.video 300 100 eq_refl eq_refl H300 eq_refl H100).
  vm_compute. split; discriminate.
Defined.

(** ** Dimensions and frame rate *)

(** [x > limit ? limit : x]: a number, never above the request nor above
    the limit, and the request itself when no limit is set or the request
    respects it. *)
Lemma capped x limit :
  exists v,
    (if Js.gt (Some x) limit then limit else Some x) = Some v /\
    v <= x /\
    (forall L, limit = Some L -> v <= L) /\
    (forall L, limit = Some L -> x <= L -> v = x) /\
    (limit = None -> v = x).
Proof.
  destruct limit as [L|]; cbn.
  - destruct (L <? x) eqn:Hlt.
    + apply Z.ltb_lt in Hlt. exists L. split; [reflexivity|].
      split; [lia|]. split; [intros ? [= <-]; lia|].
      split; [intros ? [= <-]; lia | discriminate].
    + apply Z.ltb_ge in Hlt. exists x. split; [reflexivity|].
      split; [lia|]. split; [intros ? [= <-]; lia|].
      split; [reflexivity | discriminate].
  - exists x. split; [reflexivity|]. split; [lia|].
    split; [discriminate|]. split; [discriminate | reflexivity].
Qed.

(** X4.  The width, height and frame rate of a stream are numbers that
    never exceed what the start request asked for nor the configured
    [maxWidth], [maxHeight] and [maxFPS]; without a limit they are the
    requested values. *)
Theorem X4_stream_dimensions_capped d video :
  (exists w, Start.width d video = Some w /\ w <= VideoInfo.width video /\
     (forall W, VideoConfig.maxWidth (This.ffmpegOpt d) = Some W -> w <= W) /\
     (VideoConfig.maxWidth (This.ffmpegOpt d) = None -> w = VideoInfo.width video)) /\
  (exists h, Start.height d video = Some h /\ h <= VideoInfo.height video /\
     (forall H, VideoConfig.maxHeight (This.ffmpegOpt d) = Some H -> h <= H) /\
     (VideoConfig.maxHeight (This.ffmpegOpt d) = None -> h = VideoInfo.height video)) /\
  (exists r, Start.fps d video = Some r /\ r <= VideoInfo.fps video /\
     (forall R, This.fps d = Some R -> r <= R) /\
     (This.fps d = None -> r = VideoInfo.fps video)).
Proof.
  split; [|split].
  - destruct (capped (VideoInfo.width video) (VideoConfig.maxWidth (This.ffmpegOpt d)))
      as (w & Hw & Hle & Hmax & _ & Hnone).
    exists w. by repeat split.
  - destruct (capped (VideoInfo.height video) (VideoConfig.maxHeight (This.ffmpegOpt d)))
      as (h & Hh & Hle & Hmax & _ & Hnone).
    exists h. by repeat split.
  - destruct (capped (VideoInfo.fps video) (This.fps d))
      as (r & Hr & Hle & Hmax & _ & Hnone).
    exists r. by repeat split.
Qed.

Lemma X4_stream_dimensions_capped_witness :
  let d := Sample.delegate Sample.videoConfig in
  VideoConfig.maxWidth (This.ffmpegOpt d) = Some 1280 /\
  exists w, Start.width d Sample.video = Some w /\ w <= 1280.
Proof.
  intros d. split; [reflexivity|].
  destruct (proj1 (X4_stream_dimensions_capped d Sample.video)) as (w & Hw & _ & Hmax & _).
  exists w. split; [exact Hw|]. apply Hmax. reflexivity.
Defined.

(** X5.  A snapshot is never wider or higher than requested nor than the
    configured [maxWidth] and [maxHeight], and a request within the limits
    keeps its size. *)
Theorem X5_snapshot_dimensions_capped d request :
  (exists w, Snapshot.width d request = Some w /\ w <= SnapshotRequest.width request /\
     (forall W, VideoConfig.maxWidth (This.ffmpegOpt d) = Some W ->
        w <= W /\ (SnapshotRequest.width request <= W -> w = SnapshotRequest.width request))) /\
  (exists h, Snapshot.height d request = Some h /\ h <= SnapshotRequest.height request /\
     (forall H, VideoConfig.maxHeight (This.ffmpegOpt d) = Some H ->
        h <= H /\ (SnapshotRequest.height request <= H -> h = SnapshotRequest.height request))).
Proof.
  split.
  - destruct (capped (SnapshotRequest.width request) (VideoConfig.maxWidth (This.ffmpegOpt d)))
      as (w & Hw & Hle & Hmax & Hkeep & _).
    exists w. split; [exact Hw|]. split; [exact Hle|]. intros W HW. split; eauto.
  - destruct (capped (SnapshotRequest.height request) (VideoConfig.maxHeight (This.ffmpegOpt d)))
      as (h & Hh & Hle & Hmax & Hkeep & _).
    exists h. split; [exact Hh|]. split; [exact Hle|]. intros H HH. split; eauto.
Qed.

Lemma X5_snapshot_dimensions_capped_witness :
  let d := Sample.delegate Sample.videoConfig in
  VideoConfig.maxHeight (This.ffmpegOpt d) = Some 720 /\
  exists h, Snapshot.height d Sample.snapshot = Some h /\ h <= 720.
Proof.
  intros d. split; [reflexivity|].
  destruct (proj2 (X5_snapshot_dimensions_capped d Sample.snapshot)) as (h & Hh & _ & Hmax).
  exists h. split; [exact Hh|]. apply (Hmax 720). reflexivity.
Defined.

(** X6.  For the same requested size the snapshot and the stream compute
    the same resolution and the same effective filter, and, unless the
    codec is copy, their filter lists hold the same filters (in a different
    order). *)
Theorem X6_snapshot_and_stream_agree d request video
    (Hwidth : SnapshotRequest.width request = VideoInfo.width video)
    (Hheight : SnapshotRequest.height request = VideoInfo.height video) :
  Snapshot.resolution d request = Start.resolution d video /\
  Snapshot.videoFilter d request = Start.videoFilter d video /\
  (This.vcodec d <> "copy" -> Snapshot.vf d request ≡ₚ Start.vf d video).
Proof.
  assert (Hres : Snapshot.resolution d request = Start.resolution d video).
  { unfold Snapshot.resolution, Start.resolution, Snapshot.width, Start.width,
      Snapshot.height, Start.height. by rewrite Hwidth, Hheight. }
  assert (Hfilter : Snapshot.videoFilter d request = Start.videoFilter d video).
  { unfold Snapshot.videoFilter, Start.videoFilter. by rewrite Hres. }
  split; [exact Hres|]. split; [exact Hfilter|].
  intros Hcodec. rewrite snapshot_vf, start_vf, Hfilter.
  apply String.eqb_neq in Hcodec. rewrite Hcodec, orb_false_r.
  destruct (String.eqb _ "none"); [reflexivity|].
  rewrite app_assoc. symmetry. apply Permutation_cons_append.
Qed.

Lemma X6_snapshot_and_stream_agree_witness :
  let d := Sample.delegate Sample.videoConfig in
  SnapshotRequest.width Sample.snapshot = VideoInfo.width Sample.video /\
  SnapshotRequest.height Sample.snapshot = VideoInfo.height Sample.video /\
  Snapshot.resolution d Sample.snapshot = Start.resolution d Sample.video.
Proof.
  intros d. split; [reflexivity|]. split; [reflexivity|].
  exact (proj1 (X6_snapshot_and_stream_agree d Sample.snapshot Sample.video eq_refl eq_refl)).
Defined.

(** ** Snapshots *)

Lemma onEvents_data d chunks imageBuffer rest :
  Snapshot.onEvents d imageBuffer ((Data <$> chunks) ++ rest)
  = Snapshot.onEvents d (imageBuffer ++ concat chunks) rest.
Proof.
  revert imageBuffer. induction chunks as [|chunk chunks IH]; intros imageBuffer; cbn.
  - by rewrite app_nil_r.
  - rewrite IH, <- app_assoc. reflexivity.
Qed.

(** X7.  When the transcoder writes its image in any number of chunks and
    then closes, the snapshot callback is called once, without error, with
    the chunks concatenated in the order they arrived. *)
Theorem X7_snapshot_returns_concatenated_output d request chunks :
  Snapshot.handleSnapshotRequest d request (Spawned ((Data <$> chunks) ++ [Close]))
  = [SpawnSnapshot (This.videoProcessor d) (Js.split (Snapshot.command d request));
     Log ("Snapshot from " +:+ This.name d +:+ " at " +:+ Snapshot.resolution d request)]
      ++ (if This.debug d
          then [Log (This.name d +:+ " snapshot command: ffmpeg " +:+ Snapshot.command d request)]
          else [])
      ++ [SnapshotCallback (inr (concat chunks))].
Proof.
  unfold Snapshot.handleSnapshotRequest. rewrite onEvents_data. reflexivity.
Qed.

Lemma onEvents_callback_iff_close d events imageBuffer :
  (exists result, SnapshotCallback result ∈ Snapshot.onEvents d imageBuffer events)
  <-> Close ∈ events.
Proof.
  revert imageBuffer. induction events as [|ev events IH]; intros imageBuffer; cbn.
  - split; [intros (r & Hin) | intros Hin]; by apply elem_of_nil in Hin.
  - destruct ev as [data|error|].
    + rewrite IH. rewrite elem_of_cons. split; [by right | intros [[=]|H]; exact H].
    + rewrite elem_of_cons. split.
      * intros (r & Hin). right. apply (IH imageBuffer). exists r.
        apply elem_of_cons in Hin as [[=]|Hin].
        apply elem_of_app in Hin as [Hin|Hin]; [|exact Hin].
        destruct (This.debug d).
        -- apply elem_of_cons in Hin as [[=]|Hin]. by apply elem_of_nil in Hin.
        -- by apply elem_of_nil in Hin.
      * intros [[=]|Hin]. apply (IH imageBuffer) in Hin as (r & Hin).
        exists r. apply elem_of_cons. right. apply elem_of_app. by right.
    + split; [intros _; apply elem_of_cons; by left|].
      intros _. exists (inr imageBuffer). apply elem_of_cons. by left.
Qed.

(** X8.  A snapshot whose child process was spawned answers its caller if
    and only if the child emits ['close']: without that event the callback
    is never called, whatever data or errors the child produces. *)
Theorem X8_snapshot_answers_iff_closed d request events :
  (exists result,
     SnapshotCallback result ∈ Snapshot.handleSnapshotRequest d request (Spawned events))
  <-> Close ∈ events.
Proof.
  rewrite <- (onEvents_callback_iff_close d events []).
  unfold Snapshot.handleSnapshotRequest. split.
  - intros (r & Hin). exists r.
    apply elem_of_app in Hin as [Hin|Hin].
    { apply elem_of_cons in Hin as [[=]|Hin].
      apply elem_of_cons in Hin as [[=]|Hin]. by apply elem_of_nil in Hin. }
    apply elem_of_app in Hin as [Hin|Hin]; [|exact Hin].
    destruct (This.debug d).
    + apply elem_of_cons in Hin as [[=]|Hin]. by apply elem_of_nil in Hin.
    + by apply elem_of_nil in Hin.
  - intros (r & Hin). exists r. apply elem_of_app. right. apply elem_of_app. by right.
Qed.

Lemma rev_app_chars s1 s2 :
  list_ascii_of_string (String.rev_app s1 s2)
  = reverse (list_ascii_of_string s1) ++ list_ascii_of_string s2.
Proof.
  revert s2. induction s1 as [|ch s1 IH]; intros s2; [reflexivity|].
  change (list_ascii_of_string (String.rev_app s1 (String ch s2))
          = reverse (ch :: list_ascii_of_string s1) ++ list_ascii_of_string s2).
  rewrite IH, reverse_cons, <- app_assoc. reflexivity.
Qed.

Lemma rev_chars s c :
  c ∈ list_ascii_of_string (String.rev s) -> c ∈ list_ascii_of_string s.
Proof.
  unfold String.rev. rewrite rev_app_chars. cbn. rewrite app_nil_r.
  by rewrite elem_of_reverse.
Qed.

Lemma splitGo_no_space s cur inSep field c :
  (forall c', c' ∈ list_ascii_of_string cur -> Js.isSpace c' = false) ->
  field ∈ Js.splitGo cur inSep s ->
  c ∈ list_ascii_of_string field ->
  Js.isSpace c = false.
Proof.
  revert cur inSep. induction s as [|ch s IH]; intros cur inSep Hcur Hin Hc; cbn in Hin.
  - apply list_elem_of_singleton in Hin. subst field. by apply Hcur, rev_chars.
  - destruct (Js.isSpace ch) eqn:Hsp.
    + destruct inSep.
      * by apply (IH cur true).
      * apply elem_of_cons in Hin as [->|Hin].
        -- by apply Hcur, rev_chars.
        -- apply (IH "" true); [|exact Hin|exact Hc].
           intros c' Hc'. by apply elem_of_nil in Hc'.
    + apply (IH (String ch cur) false); [|exact Hin|exact Hc].
      intros c' Hc'. cbn in Hc'. apply elem_of_cons in Hc' as [->|Hc']; [exact Hsp|].
      by apply Hcur.
Qed.

(** X9.  The snapshot process is spawned with at least one argument, and
    no argument contains white space: the command string is cut at every
    run of white space, also inside a configured source or filter. *)
Theorem X9_snapshot_arguments_have_no_space d request events processor args :
  SpawnSnapshot processor args
    ∈ Snapshot.handleSnapshotRequest d request (Spawned events) ->
  processor = This.videoProcessor d /\
  args <> [] /\
  forall arg c, arg ∈ args -> c ∈ list_ascii_of_string arg -> Js.isSpace c = false.
Proof.
  intros Hin.
  assert (Hargs : processor = This.videoProcessor d
                  /\ args = Js.split (Snapshot.command d request)).
  { unfold Snapshot.handleSnapshotRequest in Hin.
    apply elem_of_app in Hin as [Hin|Hin].
    - apply elem_of_cons in Hin as [[= -> ->]|Hin]; [by split|].
      apply elem_of_cons in Hin as [[=]|Hin]. by apply elem_of_nil in Hin.
    - apply elem_of_app in Hin as [Hin|Hin].
      + destruct (This.debug d).
        * apply elem_of_cons in Hin as [[=]|Hin]. by apply elem_of_nil in Hin.
        * by apply elem_of_nil in Hin.
      + exfalso. revert Hin. generalize (@nil byte).
        induction events as [|ev events IH]; intros buffer Hin; cbn in Hin.
        * by apply elem_of_nil in Hin.
        * destruct ev as [data|error|].
          -- by apply IH in Hin.
          -- apply elem_of_cons in Hin as [[=]|Hin].
             apply elem_of_app in Hin as [Hin|Hin]; [|by apply IH in Hin].
             destruct (This.debug d).
             ++ apply elem_of_cons in Hin as [[=]|Hin]. by apply elem_of_nil in Hin.
             ++ by apply elem_of_nil in Hin.
          -- apply elem_of_cons in Hin as [[=]|Hin]. by apply IH in Hin. }
  destruct Hargs as [-> ->]. split; [reflexivity|]. split.
  - unfold Js.split. generalize (Snapshot.command d request) "" false.
    induction s as [|ch s IH]; intros cur inSep; cbn; [discriminate|].
    destruct (Js.isSpace ch); [destruct inSep|]; first [apply IH | discriminate].
  - intros arg c Harg Hc.
    apply (splitGo_no_space (Snapshot.command d request) "" false arg c); [|exact Harg|exact Hc].
    intros c' Hc'. by apply elem_of_nil in Hc'.
Qed.

Lemma X9_snapshot_arguments_have_no_space_witness :
  let d := Sample.delegate Sample.videoConfig in
  let args := Js.split (Snapshot.command d Sample.snapshot) in
  SpawnSnapshot "ffmpeg" args
    ∈ Snapshot.handleSnapshotRequest d Sample.snapshot (Spawned [Close]) /\
  args <> [].
Proof.
  intros d args.
  assert (Hin : SpawnSnapshot "ffmpeg" args
                  ∈ Snapshot.handleSnapshotRequest d Sample.snapshot (Spawned [Close])).
  { vm_compute. apply list_elem_of_here. }
  split; [exact Hin|].
  exact (proj1 (proj2 (X9_snapshot_arguments_have_no_space d Sample.snapshot [Close]
                         "ffmpeg" args Hin))).
Defined.

(** ** Negotiation *)

(** What a negotiation that resolves an address stores and answers. *)
Lemma prepareStream_resolved env request w :
  let d := self w in
  let version := PrepareStreamRequest.addressVersion request in
  let first := ipAddress env (This.interfaceName d) version in
  forall address,
  first ∪ ipAddress env "public" version = Some address ->
  exists sessionInfo response,
    prepareStream env request w
    = (Normal tt,
       {| self := setPendingSessions d
                    (<[PrepareStreamRequest.sessionID request := sessionInfo]>
                       (This.pendingSessions d));
          effects := effects w
            ++ match first with
               | Some _ => []
               | None =>
                   [LogError ("Unable to get " +:+ version +:+ " address for "
                                +:+ This.interfaceName d +:+ "! Falling back to public.")]
               end
            ++ [PrepareCallback response] |}) /\
    SessionInfo.address sessionInfo = PrepareStreamRequest.targetAddress request /\
    SessionInfo.videoPort sessionInfo = Source.port (PrepareStreamRequest.video request) /\
    SessionInfo.audioPort sessionInfo = Source.port (PrepareStreamRequest.audio request) /\
    SessionInfo.videoReturnPort sessionInfo = getPort1 env /\
    SessionInfo.audioReturnPort sessionInfo = getPort2 env /\
    SessionInfo.videoSSRC sessionInfo = generateSynchronisationSource1 env /\
    SessionInfo.audioSSRC sessionInfo = generateSynchronisationSource2 env /\
    SessionInfo.videoSRTP sessionInfo
    = Source.srtp_key (PrepareStreamRequest.video request)
        ++ Source.srtp_salt (PrepareStreamRequest.video request) /\
    SessionInfo.audioSRTP sessionInfo
    = Source.srtp_key (PrepareStreamRequest.audio request)
        ++ Source.srtp_salt (PrepareStreamRequest.audio request) /\
    PrepareStreamResponse.address response = address /\
    ResponseSource.port (PrepareStreamResponse.video response) = getPort1 env /\
    ResponseSource.port (PrepareStreamResponse.audio response) = getPort2 env /\
    ResponseSource.ssrc (PrepareStreamResponse.video response)
    = generateSynchronisationSource1 env /\
    ResponseSource.ssrc (PrepareStreamResponse.audio response)
    = generateSynchronisationSource2 env /\
    ResponseSource.srtp_key (PrepareStreamResponse.video response)
    = Source.srtp_key (PrepareStreamRequest.video request) /\
    ResponseSource.srtp_salt (PrepareStreamResponse.video response)
    = Source.srtp_salt (PrepareStreamRequest.video request) /\
    ResponseSource.srtp_key (PrepareStreamResponse.audio response)
    = Source.srtp_key (PrepareStreamRequest.audio request) /\
    ResponseSource.srtp_salt (PrepareStreamResponse.audio response)
    = Source.srtp_salt (PrepareStreamRequest.audio request).
Proof.
  intros d version first address Haddress. subst first.
  run_handler. fold d version.
  destruct (ipAddress env (This.interfaceName d) version) as [a|]; cbn.
  - assert (a = address) as ->.
    { destruct (ipAddress env "public" version); by injection Haddress. }
    eexists _, _.
    split; [reflexivity|]. repeat split; reflexivity.
  - assert (Hpublic : ipAddress env "public" version = Some address).
    { destruct (ipAddress env "public" version); [exact Haddress | discriminate]. }
    rewrite Hpublic. cbn. eexists _, _. rewrite <- app_assoc.
    split; [reflexivity|]. repeat split; reflexivity.
Qed.

(** A negotiation that cannot resolve any address throws after logging;
    nothing is stored and nothing is answered. *)
Lemma prepareStream_unresolved env request w :
  let d := self w in
  let version := PrepareStreamRequest.addressVersion request in
  ipAddress env (This.interfaceName d) version = None ->
  ipAddress env "public" version = None ->
  prepareStream env request w
  = (Throw (Error "ip.address"),
     {| self := d;
        effects := effects w
          ++ [LogError ("Unable to get " +:+ version +:+ " address for "
                          +:+ This.interfaceName d +:+ "! Falling back to public.")] |}).
Proof.
  intros d version Hfirst Hpublic. run_handler. fold d version.
  rewrite Hfirst. cbn. rewrite Hpublic. reflexivity.
Qed.

Lemma prepareStream_returns_iff env request w :
  fst (prepareStream env request w) = Normal tt
  <-> is_Some (ipAddress env (This.interfaceName (self w))
                 (PrepareStreamRequest.addressVersion request)
               ∪ ipAddress env "public" (PrepareStreamRequest.addressVersion request)).
Proof.
  destruct (ipAddress env (This.interfaceName (self w))
              (PrepareStreamRequest.addressVersion request)
            ∪ ipAddress env "public" (PrepareStreamRequest.addressVersion request))
    as [address|] eqn:Haddress.
  - destruct (prepareStream_resolved env request w address Haddress)
      as (si & resp & -> & _). split; eauto.
  - destruct (ipAddress env (This.interfaceName (self w)) _) eqn:Hfirst.
    { destruct (ipAddress env "public" _); discriminate Haddress. }
    destruct (ipAddress env "public" _) eqn:Hpublic; [discriminate Haddress|].
    rewrite (prepareStream_unresolved env request w Hfirst Hpublic). cbn.
    split; [discriminate | intros [? [=]]].
Qed.

(** X10.  A negotiation that returns has stored a pending record under the
    request's identifier and answered with exactly the values stored: the
    return ports are the two ports obtained from [getPort], the
    synchronisation sources are the two generated ones, key and salt are
    echoed and kept concatenated, and the ongoing sessions are untouched. *)
Theorem X10_negotiation_stores_what_it_answers env request w
    (Hreturns : fst (prepareStream env request w) = Normal tt) :
  let w' := snd (prepareStream env request w) in
  exists sessionInfo response,
    This.pendingSessions (self w') !! PrepareStreamRequest.sessionID request
    = Some sessionInfo /\
    This.ongoingSessions (self w') = This.ongoingSessions (self w) /\
    last (effects w') = Some (PrepareCallback response) /\
    SessionInfo.address sessionInfo = PrepareStreamRequest.targetAddress request /\
    SessionInfo.videoPort sessionInfo = Source.port (PrepareStreamRequest.video request) /\
    SessionInfo.audioPort sessionInfo = Source.port (PrepareStreamRequest.audio request) /\
    ResponseSource.port (PrepareStreamResponse.video response)
    = SessionInfo.videoReturnPort sessionInfo /\
    SessionInfo.videoReturnPort sessionInfo = getPort1 env /\
    ResponseSource.port (PrepareStreamResponse.audio response)
    = SessionInfo.audioReturnPort sessionInfo /\
    SessionInfo.audioReturnPort sessionInfo = getPort2 env /\
    ResponseSource.ssrc (PrepareStreamResponse.video response)
    = SessionInfo.videoSSRC sessionInfo /\
    ResponseSource.ssrc (PrepareStreamResponse.audio response)
    = SessionInfo.audioSSRC sessionInfo /\
    SessionInfo.videoSRTP sessionInfo
    = ResponseSource.srtp_key (PrepareStreamResponse.video response)
        ++ ResponseSource.srtp_salt (PrepareStreamResponse.video response) /\
    SessionInfo.audioSRTP sessionInfo
    = ResponseSource.srtp_key (PrepareStreamResponse.audio response)
        ++ ResponseSource.srtp_salt (PrepareStreamResponse.audio response).
Proof.
  apply prepareStream_returns_iff in Hreturns as [address Haddress].
  destruct (prepareStream_resolved env request w address Haddress)
    as (si & resp & Hrun & Haddr & Hvp & Hap & Hvr & Har & Hvs & Has & Hvk & Hak
        & _ & Hrvp & Hrap & Hrvs & Hras & Hrvk & Hrvsalt & Hrak & Hrasalt).
  intros w'. subst w'. rewrite Hrun. cbn.
  exists si, resp.
  split; [apply lookup_insert_eq|]. split; [reflexivity|].
  split; [by rewrite !app_assoc, last_snoc|].
  rewrite Hrvp, Hrap, Hrvs, Hras, Hrvk, Hrvsalt, Hrak, Hrasalt.
  by repeat split.
Qed.

Lemma X10_negotiation_stores_what_it_answers_witness :
  let w := Sample.world Sample.videoConfig in
  fst (prepareStream Sample.env (Sample.prepare "s1") w) = Normal tt /\
  is_Some (This.pendingSessions
             (self (snd (prepareStream Sample.env (Sample.prepare "s1") w))) !! "s1").
Proof.
  intros w. split; [reflexivity|].
  destruct (X10_negotiation_stores_what_it_answers Sample.env (Sample.prepare "s1") w eq_refl)
    as (si & _ & Hsi & _).
  exists si. exact Hsi.
Defined.

(** X11.  How a negotiation fails.  When a [getPort()] rejects, the
    handler throws that error and nothing is logged, stored or answered.
    With both ports obtained: when [ip.address] throws for the configured
    interface but yields an address for the public one, the failure is
    logged and the public address is answered; when it throws for both,
    the handler throws, stores no pending record and never calls back. *)
Theorem X11_negotiation_failures videoReturnPort audioReturnPort videoSSRC audioSSRC
    ipAddress request w :
  let d := self w in
  let version := PrepareStreamRequest.addressVersion request in
  let result := prepareStreamAwaiting videoReturnPort audioReturnPort videoSSRC audioSSRC
                  ipAddress request w in
  (forall e, videoReturnPort = Rejected e -> result = (Throw e, w)) /\
  (forall port e,
     videoReturnPort = Resolved port -> audioReturnPort = Rejected e ->
     result = (Throw e, w)) /\
  (forall port1 port2 address,
     videoReturnPort = Resolved port1 -> audioReturnPort = Resolved port2 ->
     ipAddress (This.interfaceName d) version = None ->
     ipAddress "public" version = Some address ->
     fst result = Normal tt /\
     exists response logged,
       effects (snd result) = effects w ++ [LogError logged; PrepareCallback response] /\
       PrepareStreamResponse.address response = address) /\
  (forall port1 port2,
     videoReturnPort = Resolved port1 -> audioReturnPort = Resolved port2 ->
     ipAddress (This.interfaceName d) version = None ->
     ipAddress "public" version = None ->
     (exists e, fst result = Throw e) /\
     This.pendingSessions (self (snd result)) = This.pendingSessions d /\
     forall response,
       PrepareCallback response ∉ drop (length (effects w)) (effects (snd result))).
Proof.
  intros d version result. subst result. unfold prepareStreamAwaiting.
  split; [|split; [|split]].
  - by intros e ->.
  - by intros port e -> ->.
  - intros port1 port2 address -> -> Hfirst Hpublic.
    set (env := {| getPort1 := port1; getPort2 := port2;
                   generateSynchronisationSource1 := videoSSRC;
                   generateSynchronisationSource2 := audioSSRC;
                   ipAddress := ipAddress |}).
    destruct (prepareStream_resolved env request w address) as (si & resp & Hrun & Hrest).
    { subst env. cbn. fold d version. rewrite Hfirst, Hpublic. reflexivity. }
    cbn zeta in Hrun. subst env. cbn in Hrun. fold d version in Hrun.
    rewrite Hfirst in Hrun. rewrite Hrun. cbn.
    split; [reflexivity|].
    eexists resp, _. split; [reflexivity|].
    by destruct Hrest as (_ & _ & _ & _ & _ & _ & _ & _ & _ & Haddr & _).
  - intros port1 port2 -> -> Hfirst Hpublic.
    set (env := {| getPort1 := port1; getPort2 := port2;
                   generateSynchronisationSource1 := videoSSRC;
                   generateSynchronisationSource2 := audioSSRC;
                   ipAddress := ipAddress |}).
    rewrite (prepareStream_unresolved env request w Hfirst Hpublic). cbn.
    split; [eauto|]. split; [reflexivity|].
    intros response. rewrite drop_app_length.
    rewrite list_elem_of_singleton. discriminate.
Qed.

Lemma X11_negotiation_failures_witness :
  let w := Sample.world Sample.videoConfig in
  let noAddress : string -> string -> option string := fun _ _ => None in
  noAddress (This.interfaceName (self w)) "ipv4" = None /\
  noAddress "public" "ipv4" = None /\
  This.pendingSessions
    (self (snd (prepareStreamAwaiting (Resolved 40000) (Resolved 40001) 1 2 noAddress
                  (Sample.prepare "s1") w)))
  = This.pendingSessions (self w).
Proof.
  intros w noAddress. split; [reflexivity|]. split; [reflexivity|].
  exact (proj1 (proj2 (proj2 (proj2 (proj2
           (X11_negotiation_failures (Resolved 40000) (Resolved 40001) 1 2 noAddress
              (Sample.prepare "s1") w))) 40000 40001 eq_refl eq_refl eq_refl eq_refl))).
Defined.

(** ** The life of a session *)

(** X12.  Negotiate, then start: after a negotiation that returned, a
    start request for the same identifier returns normally and launches
    the transcoder; the identifier is then ongoing and no longer pending,
    and the launched handle carries the identifier and, as return port, the
    video return port obtained during the negotiation. *)
Theorem X12_negotiate_then_start stopThrows env request video audio w
    (Hreturns : fst (prepareStream env request w) = Normal tt) :
  let id := PrepareStreamRequest.sessionID request in
  let result := handleStreamRequest stopThrows (START id video audio)
                  (snd (prepareStream env request w)) in
  fst result = Normal tt /\
  This.pendingSessions (self (snd result)) = delete id (This.pendingSessions (self w)) /\
  exists ffmpeg,
    This.ongoingSessions (self (snd result)) = <[id := ffmpeg]> (This.ongoingSessions (self w)) /\
    last (effects (snd result)) = Some (Launch ffmpeg) /\
    FfmpegProcess.sessionId ffmpeg = id /\
    FfmpegProcess.returnPort ffmpeg = getPort1 env /\
    FfmpegProcess.videoProcessor ffmpeg = This.videoProcessor (self w).
Proof.
  intros id result. subst result.
  apply prepareStream_returns_iff in Hreturns as [address Haddress].
  destruct (prepareStream_resolved env request w address Haddress)
    as (si & resp & Hrun & _ & _ & _ & Hvr & _).
  rewrite Hrun. fold id.
  rewrite (start_pending stopThrows _ id video audio si) by apply lookup_insert_eq.
  cbn. split; [reflexivity|]. split; [apply delete_insert_eq|].
  eexists. split; [reflexivity|].
  split; [rewrite last_app; reflexivity|].
  split; [reflexivity|]. split; [exact Hvr | reflexivity].
Qed.

Lemma X12_negotiate_then_start_witness :
  let w := Sample.world Sample.videoConfig in
  let result := handleStreamRequest Sample.neverThrows
                  (START "s1" Sample.video Sample.audio)
                  (snd (prepareStream Sample.env (Sample.prepare "s1") w)) in
  fst (prepareStream Sample.env (Sample.prepare "s1") w) = Normal tt /\
  fst result = Normal tt.
Proof.
  intros w result. split; [reflexivity|].
  exact (proj1 (X12_negotiate_then_start Sample.neverThrows Sample.env (Sample.prepare "s1")
                  Sample.video Sample.audio w eq_refl)).
Defined.

(** X13.  A second negotiation for the same identifier overwrites the
    first: the dictionaries end exactly as if only the second negotiation
    had happened. *)
Theorem X13_second_negotiation_overwrites env1 env2 request1 request2 w
    (Hid : PrepareStreamRequest.sessionID request1 = PrepareStreamRequest.sessionID request2)
    (Hreturns : fst (prepareStream env2 request2 w) = Normal tt) :
  let twice := prepareStream env2 request2 (snd (prepareStream env1 request1 w)) in
  fst twice = Normal tt /\
  self (snd twice) = self (snd (prepareStream env2 request2 w)).
Proof.
  revert Hreturns. run_handler.
  destruct (ipAddress env1 _ _); cbn; [|destruct (ipAddress env1 _ _); cbn];
    (destruct (ipAddress env2 _ _); cbn;
     [|destruct (ipAddress env2 _ _); cbn; [|discriminate]]);
    intros _; (split; [reflexivity|]);
    unfold setPendingSessions; cbn; rewrite ?Hid, ?insert_insert_eq; reflexivity.
Qed.

Lemma X13_second_negotiation_overwrites_witness :
  let w := Sample.world Sample.videoConfig in
  let first := {| getPort1 := 41000; getPort2 := 41001;
                  generateSynchronisationSource1 := 7;
                  generateSynchronisationSource2 := 8;
                  ipAddress := fun _ _ => Some "192.168.1.10" |} in
  fst (prepareStream Sample.env (Sample.prepare "s1") w) = Normal tt /\
  self (snd (prepareStream Sample.env (Sample.prepare "s1")
               (snd (prepareStream first (Sample.prepare "s1") w))))
  = self (snd (prepareStream Sample.env (Sample.prepare "s1") w)).
Proof.
  intros w first. split; [reflexivity|].
  exact (proj2 (X13_second_negotiation_overwrites first Sample.env (Sample.prepare "s1")
                  (Sample.prepare "s1") w eq_refl eq_refl)).
Defined.

(** X14.  No request touches the records of another identifier: after a
    stream request or a negotiation, the pending and ongoing records of
    every other identifier are what they were. *)
Theorem X14_other_sessions_untouched stopThrows w other :
  (forall request,
     other <> sessionID request ->
     let w' := snd (handleStreamRequest stopThrows request w) in
     This.pendingSessions (self w') !! other = This.pendingSessions (self w) !! other /\
     This.ongoingSessions (self w') !! other = This.ongoingSessions (self w) !! other) /\
  (forall env request,
     other <> PrepareStreamRequest.sessionID request ->
     let w' := snd (prepareStream env request w) in
     This.pendingSessions (self w') !! other = This.pendingSessions (self w) !! other /\
     This.ongoingSessions (self w') !! other = This.ongoingSessions (self w) !! other).
Proof.
  split.
  - intros [id video audio|id video|id] Hother w'; subst w'; cbn in Hother.
    + destruct (This.pendingSessions (self w) !! id) as [si|] eqn:Hp.
      * rewrite (start_pending stopThrows w id video audio si Hp). cbn.
        by rewrite lookup_delete_ne, lookup_insert_ne.
      * by rewrite (start_not_pending stopThrows w id video audio Hp).
    + by split.
    + change (handleStreamRequest stopThrows (STOP id) w)
        with ((stopStream stopThrows id ≫= λ _, emit StreamCallback) w).
      unfold mbind, M_bind, bind.
      pose proof (stopStream_returns stopThrows id w) as Hret.
      pose proof (stopStream_pending stopThrows id w) as Hpending.
      pose proof (stopStream_ongoing stopThrows id w) as Hongoing.
      destruct (stopStream stopThrows id w) as [c w']. cbn in *. subst c. cbn.
      rewrite Hpending, Hongoing. split; [reflexivity|].
      destruct (_ ≫= stopThrows); [reflexivity|]. by rewrite lookup_delete_ne.
  - intros env request Hother w'. subst w'.
    destruct (ipAddress env (This.interfaceName (self w))
                (PrepareStreamRequest.addressVersion request)
              ∪ ipAddress env "public" (PrepareStreamRequest.addressVersion request))
      as [address|] eqn:Haddress.
    + destruct (prepareStream_resolved env request w address Haddress)
        as (si & resp & -> & _). cbn.
      by rewrite lookup_insert_ne.
    + destruct (ipAddress env (This.interfaceName (self w)) _) eqn:Hfirst.
      { destruct (ipAddress env "public" _); discriminate Haddress. }
      destruct (ipAddress env "public" _) eqn:Hpublic; [discriminate Haddress|].
      by rewrite (prepareStream_unresolved env request w Hfirst Hpublic).
Qed.

Lemma X14_other_sessions_untouched_witness :
  let w := snd (prepareStream Sample.env (Sample.prepare "s1")
                  (Sample.world Sample.videoConfig)) in
  "s1" <> sessionID (START "s2" Sample.video Sample.audio) /\
  This.pendingSessions
    (self (snd (handleStreamRequest Sample.neverThrows
                  (START "s2" Sample.video Sample.audio) w))) !! "s1"
  = This.pendingSessions (self w) !! "s1".
Proof.
  intros w.
  assert (Hother : "s1" <> sessionID (START "s2" Sample.video Sample.audio))
    by discriminate.
  split; [exact Hother|].
  exact (proj1 (proj1 (X14_other_sessions_untouched Sample.neverThrows w "s1")
                  (START "s2" Sample.video Sample.audio) Hother)).
Defined.

(** X15.  A start request returns normally exactly when its identifier is
    pending.  A start request repeated after a successful one throws and
    changes nothing: the ongoing record stays and no second transcoder is
    launched. *)
Theorem X15_start_needs_pending_record stopThrows id video audio w :
  let result := handleStreamRequest stopThrows (START id video audio) w in
  (fst result = Normal tt <-> is_Some (This.pendingSessions (self w) !! id)) /\
  (fst result = Normal tt ->
   forall video' audio',
     let again := handleStreamRequest stopThrows (START id video' audio') (snd result) in
     (exists e, fst again = Throw e) /\ snd again = snd result).
Proof.
  intros result. subst result.
  destruct (This.pendingSessions (self w) !! id) as [si|] eqn:Hp.
  - rewrite (start_pending stopThrows w id video audio si Hp). cbn [fst snd].
    split; [split; eauto|]. intros _ video' audio'. cbn zeta.
    rewrite start_not_pending by (cbn; apply lookup_delete_eq). cbn. eauto.
  - rewrite (start_not_pending stopThrows w id video audio Hp). cbn.
    split; [split; [discriminate | intros [? [=]]] | discriminate].
Qed.

Lemma X15_start_needs_pending_record_witness :
  let w := snd (prepareStream Sample.env (Sample.prepare "s1")
                  (Sample.world Sample.videoConfig)) in
  let result := handleStreamRequest Sample.neverThrows
                  (START "s1" Sample.video Sample.audio) w in
  fst result = Normal tt /\
  snd (handleStreamRequest Sample.neverThrows (START "s1" Sample.video Sample.audio)
         (snd result))
  = snd result.
Proof.
  intros w result.
  assert (Hret : fst result = Normal tt) by reflexivity.
  split; [exact Hret|].
  exact (proj2 (proj2 (X15_start_needs_pending_record Sample.neverThrows "s1"
                         Sample.video Sample.audio w) Hret Sample.video Sample.audio)).
Defined.

(** X16.  A start request for an identifier that is pending and already
    ongoing replaces the ongoing handle by the new one and does not stop
    the process of the old handle: it only logs and launches. *)
Theorem X16_start_replaces_without_stopping stopThrows id video audio w old sessionInfo
    (Hongoing : This.ongoingSessions (self w) !! id = Some old)
    (Hpending : This.pendingSessions (self w) !! id = Some sessionInfo) :
  let result := handleStreamRequest stopThrows (START id video audio) w in
  let new := Start.ffmpeg (self w) video audio sessionInfo id in
  This.ongoingSessions (self (snd result)) !! id = Some new /\
  exists line extra,
    effects (snd result) = effects w ++ [LogWith line extra; Launch new] /\
    forall p, StopProcess p ∉ [LogWith line extra; Launch new].
Proof.
  intros result new. subst result.
  rewrite (start_pending stopThrows w id video audio sessionInfo Hpending). cbn.
  split; [apply lookup_insert_eq|].
  eexists _, _. split; [reflexivity|].
  intros p. rewrite !not_elem_of_cons. repeat split; try discriminate.
  apply not_elem_of_nil.
Qed.

Lemma X16_start_replaces_without_stopping_witness :
  let w := run Sample.neverThrows
             [Prepare Sample.env (Sample.prepare "s1");
              Stream (START "s1" Sample.video Sample.audio);
              Prepare Sample.env (Sample.prepare "s1")]
             (Sample.world Sample.videoConfig) in
  is_Some (This.ongoingSessions (self w) !! "s1") /\
  is_Some (This.pendingSessions (self w) !! "s1") /\
  is_Some (This.ongoingSessions
             (self (snd (handleStreamRequest Sample.neverThrows
                           (START "s1" Sample.video Sample.audio) w))) !! "s1").
Proof.
  intros w.
  assert (Ho : is_Some (This.ongoingSessions (self w) !! "s1")) by (vm_compute; eauto).
  assert (Hp : is_Some (This.pendingSessions (self w) !! "s1")) by (vm_compute; eauto).
  split; [exact Ho|]. split; [exact Hp|].
  destruct Ho as [old Ho]. destruct Hp as [si Hp].
  rewrite (proj1 (X16_start_replaces_without_stopping Sample.neverThrows "s1"
                    Sample.video Sample.audio w old si Ho Hp)).
  eauto.
Defined.

(** ** Stopping *)

(** X17.  When the handle's [stop()] throws, [stopStream] still returns,
    but the ongoing record is kept: the [delete] is skipped, the two error
    lines are logged and the "Stopped" line is not. *)
Theorem X17_failed_stop_keeps_record stopThrows id w ffmpegProcess e
    (Hongoing : This.ongoingSessions (self w) !! id = Some ffmpegProcess)
    (Hthrows : stopThrows ffmpegProcess = Some e) :
  stopStream stopThrows id w
  = (Normal tt,
     {| self := self w;
        effects := effects w
          ++ [LogError "Error occurred terminating the video process!"; LogErrorJs e] |}).
Proof.
  run_handler. rewrite Hongoing. cbn. rewrite Hthrows. cbn.
  rewrite <- app_assoc. reflexivity.
Qed.

Lemma X17_failed_stop_keeps_record_witness :
  let w := run Sample.neverThrows
             [Prepare Sample.env (Sample.prepare "s1");
              Stream (START "s1" Sample.video Sample.audio)]
             (Sample.world Sample.videoConfig) in
  let failing : FfmpegProcess.t -> option JsError := fun _ => Some (SystemError "ESRCH") in
  is_Some (This.ongoingSessions (self w) !! "s1") /\
  self (snd (stopStream failing "s1" w)) = self w.
Proof.
  intros w failing.
  assert (Ho : is_Some (This.ongoingSessions (self w) !! "s1")) by (vm_compute; eauto).
  split; [exact Ho|]. destruct Ho as [p Ho].
  rewrite (X17_failed_stop_keeps_record failing "s1" w p (SystemError "ESRCH") Ho eq_refl).
  reflexivity.
Defined.

(** X18.  A stop request always returns normally and ends by calling back
    once, also when there is no such session or [stop()] throws; between
    the delegate and the callback it does exactly what [stopStream] does.
    A reconfigure request leaves the delegate as it is: it logs and calls
    back. *)
Theorem X18_stop_and_reconfigure_acknowledge stopThrows w id :
  (let result := handleStreamRequest stopThrows (STOP id) w in
   fst result = Normal tt /\
   self (snd result) = self (snd (stopStream stopThrows id w)) /\
   effects (snd result) = effects (snd (stopStream stopThrows id w)) ++ [StreamCallback]) /\
  (forall video,
     let result := handleStreamRequest stopThrows (RECONFIGURE id video) w in
     fst result = Normal tt /\
     self (snd result) = self w /\
     exists line, effects (snd result) = effects w ++ [LogDebug line; StreamCallback]).
Proof.
  split.
  - change (handleStreamRequest stopThrows (STOP id) w)
      with ((stopStream stopThrows id ≫= λ _, emit StreamCallback) w).
    unfold mbind, M_bind, bind.
    pose proof (stopStream_returns stopThrows id w) as Hret.
    destruct (stopStream stopThrows id w) as [c w']. cbn in *. subst c. cbn.
    by repeat split.
  - intros video. run_handler. cbn. split; [reflexivity|]. split; [reflexivity|].
    eexists. by rewrite <- app_assoc.
Qed.

(** X19.  Start, then stop: when a pending session is started and then
    stopped, and the handle's [stop()] returns, the identifier ends in
    neither dictionary and the process that is stopped is the one that was
    launched. *)
Theorem X19_start_then_stop stopThrows id video audio w sessionInfo
    (Hpending : This.pendingSessions (self w) !! id = Some sessionInfo)
    (Hstops : stopThrows (Start.ffmpeg (self w) video audio sessionInfo id) = None) :
  let ffmpeg := Start.ffmpeg (self w) video audio sessionInfo id in
  let started := snd (handleStreamRequest stopThrows (START id video audio) w) in
  let stopped := snd (stopStream stopThrows id started) in
  This.pendingSessions (self stopped) = delete id (This.pendingSessions (self w)) /\
  This.ongoingSessions (self stopped) = delete id (This.ongoingSessions (self w)) /\
  exists line extra,
    effects stopped
    = effects w ++ [LogWith line extra; Launch ffmpeg; StopProcess ffmpeg;
                    Log ("Stopped " +:+ This.name (self w) +:+ " video stream!")].
Proof.
  intros ffmpeg started stopped. subst stopped started ffmpeg.
  rewrite (start_pending stopThrows w id video audio sessionInfo Hpending).
  cbn [snd].
  remember (Start.ffmpeg (self w) video audio sessionInfo id) as ffmpeg eqn:Hffmpeg.
  rewrite stopStream_pending, stopStream_ongoing. cbn [self].
  split; [reflexivity|]. split.
  - cbn. rewrite lookup_insert_eq. cbn. rewrite Hstops.
    apply delete_insert_eq.
  - run_handler. cbn. rewrite lookup_insert_eq. cbn. rewrite Hstops. cbn.
    eexists _, _. rewrite <- !app_assoc. reflexivity.
Qed.

Lemma X19_start_then_stop_witness :
  let w := snd (prepareStream Sample.env (Sample.prepare "s1")
                  (Sample.world Sample.videoConfig)) in
  let started := snd (handleStreamRequest Sample.neverThrows
                        (START "s1" Sample.video Sample.audio) w) in
  is_Some (This.pendingSessions (self w) !! "s1") /\
  This.ongoingSessions (self (snd (stopStream Sample.neverThrows "s1" started)))
  = delete "s1" (This.ongoingSessions (self w)).
Proof.
  intros w started.
  assert (Hp : is_Some (This.pendingSessions (self w) !! "s1")) by (vm_compute; eauto).
  split; [exact Hp|]. destruct Hp as [si Hp].
  exact (proj1 (proj2 (X19_start_then_stop Sample.neverThrows "s1" Sample.video Sample.audio
                         w si Hp eq_refl))).
Defined.

(** ** Shutdown *)

Lemma shutdown_cons stopThrows session rest w :
  shutdown stopThrows (session :: rest) w
  = shutdown stopThrows rest (snd (stopStream stopThrows session w)).
Proof.
  cbn [shutdown]. unfold mbind, M_bind, bind.
  pose proof (stopStream_returns stopThrows session w) as Hret.
  destruct (stopStream stopThrows session w) as [c w']. cbn in *. by subst c.
Qed.

Lemma stopStream_effects stopThrows id w :
  exists new, effects (snd (stopStream stopThrows id w)) = effects w ++ new /\
    forall p, This.ongoingSessions (self w) !! id = Some p -> stopThrows p = None ->
              StopProcess p ∈ new.
Proof.
  run_handler.
  destruct (This.ongoingSessions (self w) !! id) as [p|]; cbn.
  - destruct (stopThrows p) eqn:Hp; cbn.
    + eexists. rewrite <- app_assoc. split; [reflexivity|].
      intros p' [= <-] Hnone. congruence.
    + eexists. rewrite <- app_assoc. split; [reflexivity|].
      intros p' [= <-] _. apply list_elem_of_here.
  - eexists. split; [reflexivity|]. intros p [=].
Qed.

Lemma shutdown_stops stopThrows sessions w :
  (forall p, stopThrows p = None) ->
  exists new,
    effects (snd (shutdown stopThrows sessions w)) = effects w ++ new /\
    forall id p, id ∈ sessions -> This.ongoingSessions (self w) !! id = Some p ->
                 StopProcess p ∈ new.
Proof.
  intros Hstops. revert w. induction sessions as [|session rest IH]; intros w.
  - exists []. split; [by rewrite app_nil_r|].
    intros id p Hin. by apply elem_of_nil in Hin.
  - rewrite shutdown_cons.
    destruct (IH (snd (stopStream stopThrows session w))) as (new2 & -> & Hnew2).
    destruct (stopStream_effects stopThrows session w) as (new1 & -> & Hnew1).
    exists (new1 ++ new2). split; [by rewrite app_assoc|].
    intros id p Hin Hid. apply elem_of_app.
    destruct (decide (id = session)) as [->|Hne].
    + left. by apply Hnew1.
    + right. apply elem_of_cons in Hin as [->|Hin]; [done|].
      apply (Hnew2 id p Hin). rewrite stopStream_ongoing.
      destruct (_ ≫= stopThrows) eqn:Hbind.
      * destruct (This.ongoingSessions (self w) !! session); cbn in Hbind;
          [by rewrite Hstops in Hbind | discriminate].
      * by rewrite lookup_delete_ne.
Qed.

Lemma shutdown_ongoing stopThrows sessions w id :
  (forall p, stopThrows p = None) ->
  This.ongoingSessions (self (snd (shutdown stopThrows sessions w))) !! id
  = if decide (id ∈ sessions) then None else This.ongoingSessions (self w) !! id.
Proof.
  intros Hstops. revert w. induction sessions as [|session rest IH]; intros w.
  - rewrite decide_False by apply not_elem_of_nil. reflexivity.
  - rewrite shutdown_cons, IH, stopStream_ongoing.
    assert (This.ongoingSessions (self w) !! session ≫= stopThrows = None) as ->.
    { destruct (This.ongoingSessions (self w) !! session); cbn; [apply Hstops | done]. }
    destruct (decide (id ∈ rest)) as [Hin|Hnotin].
    + rewrite decide_True; [reflexivity | by apply list_elem_of_further].
    + destruct (decide (id = session)) as [->|Hne].
      * rewrite decide_True by apply list_elem_of_here. apply lookup_delete_eq.
      * rewrite decide_False by (rewrite elem_of_cons; tauto).
        by apply lookup_delete_ne.
Qed.

(** X20.  The shutdown handler never throws and never touches the pending
    sessions.  When no [stop()] throws and the loop visits every ongoing
    identifier, every ongoing process is stopped and no session is ongoing
    afterwards. *)
Theorem X20_shutdown_stops_every_session stopThrows sessions w :
  let result := shutdown stopThrows sessions w in
  fst result = Normal tt /\
  This.pendingSessions (self (snd result)) = This.pendingSessions (self w) /\
  ((forall p, stopThrows p = None) ->
   (forall id, is_Some (This.ongoingSessions (self w) !! id) -> id ∈ sessions) ->
   This.ongoingSessions (self (snd result)) = ∅ /\
   exists new,
     effects (snd result) = effects w ++ new /\
     forall id p, This.ongoingSessions (self w) !! id = Some p -> StopProcess p ∈ new).
Proof.
  intros result. subst result. split; [|split].
  - revert w. induction sessions as [|session rest IH]; intros w; [reflexivity|].
    rewrite shutdown_cons. apply IH.
  - revert w. induction sessions as [|session rest IH]; intros w; [reflexivity|].
    rewrite shutdown_cons, IH. apply stopStream_pending.
  - intros Hstops Hcover. split.
    + apply map_empty. intros id. rewrite shutdown_ongoing by exact Hstops.
      destruct (decide (id ∈ sessions)) as [_|Hnotin]; [reflexivity|].
      destruct (This.ongoingSessions (self w) !! id) eqn:Hid; [|reflexivity].
      exfalso. apply Hnotin, Hcover. by rewrite Hid.
    + destruct (shutdown_stops stopThrows sessions w Hstops) as (new & Hnew & Hin).
      exists new. split; [exact Hnew|].
      intros id p Hid. apply (Hin id p); [|exact Hid]. apply Hcover. by rewrite Hid.
Qed.

Lemma X20_shutdown_stops_every_session_witness :
  let w := run Sample.neverThrows
             [Prepare Sample.env (Sample.prepare "s1");
              Stream (START "s1" Sample.video Sample.audio)]
             (Sample.world Sample.videoConfig) in
  (forall p, Sample.neverThrows p = None) /\
  (forall id, is_Some (This.ongoingSessions (self w) !! id) -> id ∈ ["s1"]) /\
  This.ongoingSessions (self (snd (shutdown Sample.neverThrows ["s1"] w))) = ∅.
Proof.
  intros w.
  assert (Hstops : forall p, Sample.neverThrows p = None) by reflexivity.
  assert (Hcover : forall id, is_Some (This.ongoingSessions (self w) !! id) -> id ∈ ["s1"]).
  { intros id Hid. destruct (decide (id = "s1")) as [->|Hne]; [apply list_elem_of_here|].
    exfalso. revert Hid.
    replace (This.ongoingSessions (self w))
      with (<["s1" := Start.ffmpeg (Sample.delegate Sample.videoConfig) Sample.video
                        Sample.audio
                        {| SessionInfo.address := "192.168.1.20";
                           SessionInfo.videoPort := 50000;
                           SessionInfo.videoReturnPort := 40000;
                           SessionInfo.videoCryptoSuite := 0;
                           SessionInfo.videoSRTP := ["k"; "e"; "y"; "s"; "a"; "l"]%byte;
                           SessionInfo.videoSSRC := 1;
                           SessionInfo.audioPort := 50002;
                           SessionInfo.audioReturnPort := 40001;
                           SessionInfo.audioCryptoSuite := 0;
                           SessionInfo.audioSRTP := ["k"; "e"; "y"; "s"; "a"; "l"]%byte;
                           SessionInfo.audioSSRC := 2 |} "s1"]>
              (∅ : gmap string FfmpegProcess.t))
      by reflexivity.
    rewrite lookup_insert_ne, lookup_empty by done. by intros [? [=]]. }
  split; [exact Hstops|]. split; [exact Hcover|].
  exact (proj1 (proj2 (proj2 (X20_shutdown_stops_every_session Sample.neverThrows ["s1"] w))
                  Hstops Hcover)).
Defined.
